(** * System resource monitor: metrics simulation, alerting and chat responses

    A shallow embedding of [systemMonitor.js] (class [SystemMonitor]),
    [chat.js] (method [ChatController.generateResponse]), [dashboard.js]
    (the update methods of [DashboardController], by the values they
    assign to the page) and the parts of [config.js] they read.

    Modelling choices.
    - A JavaScript number is modelled as an exact rational ([Q]); counters
      and array indices that the code keeps integral are [Z] or [nat].
      The properties below are about ordering, clamping, integer parts and
      decimal formatting; rounding of binary floating point is not
      modelled.
    - [Math.random()] reads the next element of a stream of draws
      [draws : nat -> Q]; the monitor carries the number of draws made so
      far.  A draw of the real generator lies in [[0,1)], which is the
      predicate [unit_draws].
    - A string is a [string] of bytes (UTF-8); [toLowerCase] maps the
      ASCII capitals and leaves every other byte unchanged, so the two
      non-ASCII characters whose lower case begins with an ASCII letter
      (U+212A and U+0130) are not folded.  The properties of
      [generateResponse] below are stated on the lower-cased message or on
      ASCII messages and do not depend on that. *)

From Stdlib Require Import QArith Qround Qabs ZArith List String Ascii Bool.
From Stdlib Require Import Lia Lqa Sorted Permutation DecimalString.
From Stdlib Require Decimal DecimalN DecimalPos.
Import ListNotations.

Local Open Scope Q_scope.

(* ===================================================================== *)
(** ** JavaScript numbers *)
(* ===================================================================== *)

Module Num.

(** [a > b] and [a < b] on numbers. *)
Definition gt (a b : Q) : bool := negb (Qle_bool a b).
Definition lt (a b : Q) : bool := negb (Qle_bool b a).

(** [Math.max(a, b)] and [Math.min(a, b)]. *)
Definition Math_max (a b : Q) : Q := if lt a b then b else a.
Definition Math_min (a b : Q) : Q := if lt b a then b else a.

(** [Math.floor(x)]. *)
Definition Math_floor (x : Q) : Z := Qfloor x.

(** The result of a division: a finite number, or what JavaScript gives
    for a zero divisor (the one zero of [Q] stands for [+0]). *)
Inductive ext : Type :=
| Fin (q : Q)
| PosInfinity
| NegInfinity
| NaN.

Definition div (a b : Q) : ext :=
  if Qeq_bool b 0 then
    if Qeq_bool a 0 then NaN
    else if lt a 0 then NegInfinity else PosInfinity
  else Fin (a / b).

(** [x * k] and [x > y] for a quotient [x] and finite [k], [y]. *)
Definition ext_mul (x : ext) (k : Q) : ext :=
  match x with
  | Fin q => Fin (q * k)
  | PosInfinity =>
      if Qeq_bool k 0 then NaN
      else if lt k 0 then NegInfinity else PosInfinity
  | NegInfinity =>
      if Qeq_bool k 0 then NaN
      else if lt k 0 then PosInfinity else NegInfinity
  | NaN => NaN
  end.

Definition ext_gt (x : ext) (y : Q) : bool :=
  match x with
  | Fin q => gt q y
  | PosInfinity => true
  | NegInfinity | NaN => false
  end.

End Num.

(* ===================================================================== *)
(** ** JavaScript strings and number formatting *)
(* ===================================================================== *)

Module Str.

Local Open Scope string_scope.

Definition nl : string := String "010"%char EmptyString.
Definition dq : string := String "034"%char EmptyString.

(** [s.toLowerCase()] on the ASCII capitals. *)
Definition lowerChar (c : ascii) : ascii :=
  let n := nat_of_ascii c in
  if ((65 <=? n) && (n <=? 90))%nat then ascii_of_nat (n + 32) else c.

Fixpoint toLowerCase (s : string) : string :=
  match s with
  | EmptyString => EmptyString
  | String c s' => String (lowerChar c) (toLowerCase s')
  end.

(** [s.includes(sub)]: [sub] occurs in [s] as a contiguous substring. *)
Fixpoint includes (s sub : string) : bool :=
  if prefix sub s then true
  else match s with
       | EmptyString => false
       | String _ s' => includes s' sub
       end.

Fixpoint zeros (k : nat) : string :=
  match k with
  | O => EmptyString
  | S k' => String "0"%char (zeros k')
  end.

(** Decimal digits of a non-negative integer. *)
Definition digitsOf (n : Z) : string :=
  NilZero.string_of_uint (N.to_uint (Z.to_N n)).

Definition natToString (n : nat) : string :=
  NilZero.string_of_uint (Nat.to_uint n).

Definition intToString (n : Z) : string :=
  NilZero.string_of_int (Z.to_int n).

(** Fractional digits of [r / d] (with [0 <= r < d]) by long division,
    stopping when the remainder vanishes or after [fuel] digits. *)
Fixpoint fracDigits (fuel : nat) (r d : Z) : string :=
  match fuel with
  | O => EmptyString
  | S fuel' =>
      if (r =? 0)%Z then EmptyString
      else digitsOf (r * 10 / d) ++ fracDigits fuel' (r * 10 mod d) d
  end.

(** String conversion of a number ([`${x}`]): an optional sign, the
    integer part, and for a non-integer a point and the decimal
    expansion, cut after the 17 digits a double can carry.  This is
    what JavaScript prints for the numbers with a short decimal form
    used here ([8], [16], [3.5], [45]) below the magnitude [10^21]
    where it switches to exponent notation. *)
Definition Number_toString (x : Q) : string :=
  let ax := Qabs x in
  let ip := Qfloor ax in
  let r := (Qnum ax - ip * Zpos (Qden ax))%Z in
  let frac := fracDigits 17 r (Zpos (Qden ax)) in
  (if Num.lt x 0 then "-" else EmptyString)
    ++ digitsOf ip
    ++ (if String.eqb frac EmptyString then EmptyString else "." ++ frac).

(** [x.toFixed(digits)]: with the sign split off, the integer [n] for
    which [n / 10^digits] is nearest to [|x|] (the larger on a tie),
    printed with exactly [digits] decimals. *)
Definition fixedInteger (digits : nat) (x : Q) : Z :=
  Qfloor (Qabs x * inject_Z (10 ^ Z.of_nat digits) + (1 # 2)).

Definition toFixed (digits : nat) (x : Q) : string :=
  if Qle_bool (inject_Z (10 ^ 21)) (Qabs x) then Number_toString x
  else
    let ds := digitsOf (fixedInteger digits x) in
    let padded := zeros (S digits - String.length ds) ++ ds in
    let k := (String.length padded - digits)%nat in
    (if Num.lt x 0 then "-" else EmptyString)
      ++ substring 0 k padded
      ++ (if (digits =? 0)%nat then EmptyString
          else "." ++ substring k digits padded).

(** [x.toFixed(digits)] for a quotient. *)
Definition ext_toFixed (digits : nat) (x : Num.ext) : string :=
  match x with
  | Num.Fin q => toFixed digits q
  | Num.PosInfinity => "Infinity"
  | Num.NegInfinity => "-Infinity"
  | Num.NaN => "NaN"
  end.

(** Conversion of a string to a number, as the comparison
    [memPercent > 80] applies it to the result of [toFixed]: an optional
    sign, digits, and optionally a point and digits; or a signed
    [Infinity]; anything else is [NaN]. *)
Definition digitValue (c : ascii) : option Z :=
  let n := nat_of_ascii c in
  if ((48 <=? n) && (n <=? 57))%nat then Some (Z.of_nat (n - 48)) else None.

Fixpoint readDigits (s : string) (acc : Z) (count : nat)
  : Z * nat * string :=
  match s with
  | EmptyString => (acc, count, s)
  | String c s' =>
      match digitValue c with
      | Some d => readDigits s' (acc * 10 + d)%Z (S count)
      | None => (acc, count, s)
      end
  end.

Definition unsignedToNumber (s : string) : option Q :=
  let '(ip, n, rest) := readDigits s 0%Z 0%nat in
  if (n =? 0)%nat then None
  else match rest with
       | EmptyString => Some (inject_Z ip)
       | String "."%char rest' =>
           let '(fp, k, rest'') := readDigits rest' 0%Z 0%nat in
           match rest'' with
           | EmptyString =>
               Some (inject_Z ip + inject_Z fp / inject_Z (10 ^ Z.of_nat k))
           | String _ _ => None
           end
       | String _ _ => None
       end.

Definition StringToNumber (s : string) : Num.ext :=
  if String.eqb s "Infinity" then Num.PosInfinity
  else if String.eqb s "-Infinity" then Num.NegInfinity
  else
    match s with
    | String "-"%char s' =>
        match unsignedToNumber s' with
        | Some v => Num.Fin (- v)
        | None => Num.NaN
        end
    | _ =>
        match unsignedToNumber s with
        | Some v => Num.Fin v
        | None => Num.NaN
        end
    end.

(** [s > y] for a string [s] and a number [y]. *)
Definition stringGt (s : string) (y : Q) : bool :=
  Num.ext_gt (StringToNumber s) y.

End Str.


(* ===================================================================== *)
(** ** config.js *)
(* ===================================================================== *)

Module Config.

Record Monitoring : Type := {
  UPDATE_INTERVAL : Q;
  ALERT_THRESHOLD_CPU : Q;
  ALERT_THRESHOLD_MEMORY : Q;
  MAX_PROCESSES_DISPLAY : nat
}.

Record System : Type := {
  CPU_CORES : Q;
  CPU_FREQUENCY : Q;
  TOTAL_MEMORY : Q;
  DISK_SIZE : Q
}.

(** The groups [THRESHOLDS], [CHAT] and [OS_TOPICS] are read by neither
    the monitor nor the response engine and are left out. *)
Record t : Type := {
  MONITORING : Monitoring;
  SYSTEM : System;
  PROCESS_NAMES : list string
}.

End Config.

(** The configuration as shipped. *)
Definition CONFIG : Config.t := {|
  Config.MONITORING := {|
    Config.UPDATE_INTERVAL := 2000;
    Config.ALERT_THRESHOLD_CPU := 85;
    Config.ALERT_THRESHOLD_MEMORY := 85;
    Config.MAX_PROCESSES_DISPLAY := 8
  |};
  Config.SYSTEM := {|
    Config.CPU_CORES := 8;
    Config.CPU_FREQUENCY := 3.5;
    Config.TOTAL_MEMORY := 16;
    Config.DISK_SIZE := 512
  |};
  Config.PROCESS_NAMES := [
    "chrome.exe"; "code.exe"; "node.exe"; "python.exe"; "explorer.exe";
    "firefox.exe"; "docker.exe"; "postgres.exe"; "mysql.exe"; "nginx.exe";
    "java.exe"; "teams.exe"; "slack.exe"; "spotify.exe"; "system"
  ]%string
|}.

(* ===================================================================== *)
(** ** The metrics snapshot *)
(* ===================================================================== *)

Module Cpu.
Record t : Type := { usage : Q; cores : Q; frequency : Q }.
End Cpu.

Module Memory.
Record t : Type := { used : Q; total : Q; available : Q }.
End Memory.

Module Disk.
Record t : Type := { read : Q; write : Q; usage : Q }.
End Disk.

Module Network.
Record t : Type := { sent : Q; received : Q }.
End Network.

Inductive Status : Type := high | medium | low.

Inductive ProcessState : Type := running | ready | waiting | sleeping.

Module Process.
(** [state] is [None] when the lookup [states[i]] is [undefined]. *)
Record t : Type := {
  name : string;
  pid : Z;
  cpu : Q;
  memory : Q;
  status : Status;
  state : option ProcessState
}.
End Process.

Module Metrics.
Record t : Type := {
  cpu : Cpu.t;
  memory : Memory.t;
  disk : Disk.t;
  network : Network.t;
  processes : list Process.t
}.
End Metrics.

Module Alert.
Record t : Type := { type : string; severity : string; message : string }.
End Alert.

(* ===================================================================== *)
(** ** Arrays *)
(* ===================================================================== *)

Module Arr.

Section Sort.
Context {A : Type}.
Variable compareFn : A -> A -> Q.

(** [Array.prototype.sort] is stable: elements that the comparator
    does not order keep their relative position.  The sorted array is
    built by inserting each element, from the last to the first, in
    front of the first element it does not have to follow. *)
Fixpoint insert (x : A) (l : list A) : list A :=
  match l with
  | [] => [x]
  | y :: l' =>
      if Qle_bool (compareFn x y) 0 then x :: y :: l'
      else y :: insert x l'
  end.

Definition sort (l : list A) : list A := fold_right insert [] l.
End Sort.

(** [a.slice(0, n)] for a count [n]. *)
Definition slice0 {A : Type} (n : nat) (l : list A) : list A := firstn n l.

(** [a.find(p)]: the first element that satisfies [p], or [undefined]. *)
Definition find {A : Type} (p : A -> bool) (l : list A) : option A :=
  List.find p l.

End Arr.

(* ===================================================================== *)
(** ** Program state and the sequencing of effects *)
(* ===================================================================== *)

(** The state the methods of [SystemMonitor] act on: the field
    [this.metrics] of the one instance, and the number of calls of
    [Math.random()] made so far. *)
Record State : Type := {
  metrics : Metrics.t;
  randomCalls : nat
}.

Definition Run (A : Type) : Type := State -> A * State.

Definition ret {A : Type} (a : A) : Run A := fun st => (a, st).

Definition bind {A B : Type} (c : Run A) (k : A -> Run B) : Run B :=
  fun st => let r := c st in k (fst r) (snd r).

Declare Scope run_scope.
Delimit Scope run_scope with run.
Notation "x <- c ;; k" := (bind c (fun x => k))
  (at level 61, c at next level, right associativity) : run_scope.
Notation "c ;;; k" := (bind c (fun _ => k))
  (at level 61, right associativity) : run_scope.

Definition readMetrics : Run Metrics.t := fun st => (metrics st, st).

Definition modifyMetrics (f : Metrics.t -> Metrics.t) : Run unit :=
  fun st => (tt, {| metrics := f (metrics st); randomCalls := randomCalls st |}).

Fixpoint mapRun {A B : Type} (f : A -> Run B) (l : list A) : Run (list B) :=
  match l with
  | [] => ret []
  | x :: l' => (y <- f x ;; ys <- mapRun f l' ;; ret (y :: ys))%run
  end.

(** Outcome of evaluating [new C()]. *)
Inductive Completion (A : Type) : Type :=
| Normal (value : A)
| Throw (error : string).
Arguments Normal {A} value.
Arguments Throw {A} error.

(** Assignments to the fields of [this.metrics]. *)
Definition set_cpu_usage (v : Q) (m : Metrics.t) : Metrics.t := {|
  Metrics.cpu := {| Cpu.usage := v;
                    Cpu.cores := Cpu.cores (Metrics.cpu m);
                    Cpu.frequency := Cpu.frequency (Metrics.cpu m) |};
  Metrics.memory := Metrics.memory m;
  Metrics.disk := Metrics.disk m;
  Metrics.network := Metrics.network m;
  Metrics.processes := Metrics.processes m
|}.

Definition set_memory_used (v : Q) (m : Metrics.t) : Metrics.t := {|
  Metrics.cpu := Metrics.cpu m;
  Metrics.memory := {| Memory.used := v;
                       Memory.total := Memory.total (Metrics.memory m);
                       Memory.available := Memory.available (Metrics.memory m) |};
  Metrics.disk := Metrics.disk m;
  Metrics.network := Metrics.network m;
  Metrics.processes := Metrics.processes m
|}.

Definition set_memory_available (v : Q) (m : Metrics.t) : Metrics.t := {|
  Metrics.cpu := Metrics.cpu m;
  Metrics.memory := {| Memory.used := Memory.used (Metrics.memory m);
                       Memory.total := Memory.total (Metrics.memory m);
                       Memory.available := v |};
  Metrics.disk := Metrics.disk m;
  Metrics.network := Metrics.network m;
  Metrics.processes := Metrics.processes m
|}.

Definition set_disk_read (v : Q) (m : Metrics.t) : Metrics.t := {|
  Metrics.cpu := Metrics.cpu m;
  Metrics.memory := Metrics.memory m;
  Metrics.disk := {| Disk.read := v;
                     Disk.write := Disk.write (Metrics.disk m);
                     Disk.usage := Disk.usage (Metrics.disk m) |};
  Metrics.network := Metrics.network m;
  Metrics.processes := Metrics.processes m
|}.

Definition set_disk_write (v : Q) (m : Metrics.t) : Metrics.t := {|
  Metrics.cpu := Metrics.cpu m;
  Metrics.memory := Metrics.memory m;
  Metrics.disk := {| Disk.read := Disk.read (Metrics.disk m);
                     Disk.write := v;
                     Disk.usage := Disk.usage (Metrics.disk m) |};
  Metrics.network := Metrics.network m;
  Metrics.processes := Metrics.processes m
|}.

Definition set_network_sent (v : Q) (m : Metrics.t) : Metrics.t := {|
  Metrics.cpu := Metrics.cpu m;
  Metrics.memory := Metrics.memory m;
  Metrics.disk := Metrics.disk m;
  Metrics.network := {| Network.sent := v;
                        Network.received := Network.received (Metrics.network m) |};
  Metrics.processes := Metrics.processes m
|}.

Definition set_network_received (v : Q) (m : Metrics.t) : Metrics.t := {|
  Metrics.cpu := Metrics.cpu m;
  Metrics.memory := Metrics.memory m;
  Metrics.disk := Metrics.disk m;
  Metrics.network := {| Network.sent := Network.sent (Metrics.network m);
                        Network.received := v |};
  Metrics.processes := Metrics.processes m
|}.

Definition set_processes (v : list Process.t) (m : Metrics.t) : Metrics.t := {|
  Metrics.cpu := Metrics.cpu m;
  Metrics.memory := Metrics.memory m;
  Metrics.disk := Metrics.disk m;
  Metrics.network := Metrics.network m;
  Metrics.processes := v
|}.

(* ===================================================================== *)
(** ** systemMonitor.js: class SystemMonitor *)
(* ===================================================================== *)

Section SystemMonitor.

Variable cfg : Config.t.
Variable draws : nat -> Q.

Local Open Scope run_scope.

(** [Math.random()]: the next draw. *)
Definition Math_random : Run Q :=
  fun st => (draws (randomCalls st),
             {| metrics := metrics st; randomCalls := S (randomCalls st) |}).

(** [constructor()] *)
Definition constructor : Metrics.t := {|
  Metrics.cpu := {| Cpu.usage := 35;
                    Cpu.cores := Config.CPU_CORES (Config.SYSTEM cfg);
                    Cpu.frequency := Config.CPU_FREQUENCY (Config.SYSTEM cfg) |};
  Metrics.memory := {| Memory.used := 8.5;
                       Memory.total := Config.TOTAL_MEMORY (Config.SYSTEM cfg);
                       Memory.available :=
                         Config.TOTAL_MEMORY (Config.SYSTEM cfg) - 8.5 |};
  Metrics.disk := {| Disk.read := 0; Disk.write := 0; Disk.usage := 45 |};
  Metrics.network := {| Network.sent := 0; Network.received := 0 |};
  Metrics.processes := []
|}.

(** [new SystemMonitor()]: the body of the constructor has no [throw]
    and calls nothing that could. *)
Definition new_SystemMonitor : Completion Metrics.t := Normal constructor.

(** [getRandomProcessState()] *)
Definition states : list ProcessState := [running; ready; waiting; sleeping].

Definition getRandomProcessState : Run (option ProcessState) :=
  r <- Math_random ;;
  let i := Num.Math_floor (r * inject_Z (Z.of_nat (List.length states))) in
  ret (if (i <? 0)%Z then None else nth_error states (Z.to_nat i)).

(** The [status] expression of [generateProcesses]:
    [Math.random() > 0.8 ? 'high' : (Math.random() > 0.5 ? 'medium' : 'low')] *)
Definition randomStatus : Run Status :=
  r <- Math_random ;;
  if Num.gt r 0.8 then ret high
  else
    r' <- Math_random ;;
    ret (if Num.gt r' 0.5 then medium else low).

(** The callback of [CONFIG.PROCESS_NAMES.map] in [generateProcesses]. *)
Definition makeProcess (name : string) : Run Process.t :=
  r_pid <- Math_random ;;
  r_cpu <- Math_random ;;
  r_memory <- Math_random ;;
  status <- randomStatus ;;
  state <- getRandomProcessState ;;
  ret {| Process.name := name;
         Process.pid := 1000 + Num.Math_floor (r_pid * 9000);
         Process.cpu := r_cpu * 25;
         Process.memory := r_memory * 1024;
         Process.status := status;
         Process.state := state |}.

(** The comparator [(a, b) => b.cpu - a.cpu]. *)
Definition byCpuDescending (a b : Process.t) : Q :=
  Process.cpu b - Process.cpu a.

(** [generateProcesses()] *)
Definition generateProcesses : Run (list Process.t) :=
  processes <- mapRun makeProcess (Config.PROCESS_NAMES cfg) ;;
  ret (Arr.slice0 (Config.MAX_PROCESSES_DISPLAY (Config.MONITORING cfg))
         (Arr.sort byCpuDescending processes)).

(** [updateMetrics()] *)
Definition updateMetrics : Run unit :=
  m <- readMetrics ;;
  r <- Math_random ;;
  modifyMetrics (set_cpu_usage
    (Num.Math_max 5 (Num.Math_min 95
       (Cpu.usage (Metrics.cpu m) + (r - 0.5) * 10)))) ;;;
  m <- readMetrics ;;
  r <- Math_random ;;
  modifyMetrics (set_memory_used
    (Num.Math_max 2 (Num.Math_min 14
       (Memory.used (Metrics.memory m) + (r - 0.5) * 0.5)))) ;;;
  m <- readMetrics ;;
  modifyMetrics (set_memory_available
    (Memory.total (Metrics.memory m) - Memory.used (Metrics.memory m))) ;;;
  r <- Math_random ;;
  modifyMetrics (set_disk_read (r * 150)) ;;;
  r <- Math_random ;;
  modifyMetrics (set_disk_write (r * 100)) ;;;
  r <- Math_random ;;
  modifyMetrics (set_network_sent (r * 500)) ;;;
  r <- Math_random ;;
  modifyMetrics (set_network_received (r * 800)) ;;;
  processes <- generateProcesses ;;
  modifyMetrics (set_processes processes).

(** [getMetrics()] *)
Definition getMetrics : Run Metrics.t := readMetrics.

(** [checkAlerts()] *)
Definition cpuAlert : Alert.t := {|
  Alert.type := "cpu";
  Alert.severity := "high";
  Alert.message :=
    "⚠️ High CPU usage detected! Consider closing unnecessary applications."
|}.

Definition memoryAlert : Alert.t := {|
  Alert.type := "memory";
  Alert.severity := "high";
  Alert.message :=
    "⚠️ Memory usage is critically high! System may slow down."
|}.

Definition checkAlerts : Run (list Alert.t) :=
  m <- readMetrics ;;
  let alerts := [] in
  let alerts :=
    if Num.gt (Cpu.usage (Metrics.cpu m))
              (Config.ALERT_THRESHOLD_CPU (Config.MONITORING cfg))
    then alerts ++ [cpuAlert] else alerts in
  let memoryPercent :=
    Num.ext_mul (Num.div (Memory.used (Metrics.memory m))
                         (Memory.total (Metrics.memory m))) 100 in
  let alerts :=
    if Num.ext_gt memoryPercent
                  (Config.ALERT_THRESHOLD_MEMORY (Config.MONITORING cfg))
    then alerts ++ [memoryAlert] else alerts in
  ret alerts.

(** [getProcessByPID(pid)] *)
Definition getProcessByPID (pid : Z) : Run (option Process.t) :=
  m <- readMetrics ;;
  ret (Arr.find (fun proc => (Process.pid proc =? pid)%Z)
                (Metrics.processes m)).

(** [getContextSwitches()] *)
Definition getContextSwitches : Run Z :=
  m <- readMetrics ;;
  ret (Num.Math_floor (Cpu.usage (Metrics.cpu m) * 100)).

(** The global instance [systemMonitor = new SystemMonitor()] at start,
    and the state after [n] calls of [updateMetrics()]. *)
Definition start : State := {| metrics := constructor; randomCalls := 0 |}.

Fixpoint ticks (n : nat) (st : State) : State :=
  match n with
  | O => st
  | S n' => ticks n' (snd (updateMetrics st))
  end.

End SystemMonitor.

(* ===================================================================== *)
(** ** chat.js: ChatController.generateResponse *)
(* ===================================================================== *)

Module Chat.

Import Str.
Local Open Scope string_scope.

(** A block of [generateResponse] either returns a response or falls
    through to the statement after it.  [b ?> k] is the block [b]
    followed by the rest [k] of the function. *)
Definition orContinue (b : option string) (k : string) : string :=
  match b with
  | Some response => response
  | None => k
  end.

Notation "b ?> k" := (orContinue b k) (at level 65, right associativity).

Section Responses.

(** [this.systemMonitor] and [metrics = this.systemMonitor.getMetrics()]. *)
Variable systemMonitor : State.
Let metrics : Metrics.t := fst (getMetrics systemMonitor).

(** The response templates, in the order of the source. *)
Definition cpuStatusResponse : string :=
  "🔍 <strong>Current CPU Status:</strong><br><br>" ++ nl ++
  "                    • Usage: <strong>" ++ toFixed 1 (Cpu.usage (Metrics.cpu metrics)) ++ "%</strong><br>" ++ nl ++
  "                    • Cores: " ++ Number_toString (Cpu.cores (Metrics.cpu metrics)) ++ " logical processors<br>" ++ nl ++
  "                    • Frequency: " ++ Number_toString (Cpu.frequency (Metrics.cpu metrics)) ++ " GHz<br><br>" ++ nl ++
  "                    " ++ (if Num.gt (Cpu.usage (Metrics.cpu metrics)) 70 then "⚠️ CPU usage is high. " else "✅ CPU usage is normal. ") ++ nl ++
  "                    <br><br><strong>OS Theory:</strong> The CPU scheduler uses algorithms like Round-Robin and Priority Scheduling to allocate processor time to processes. Context switches occur approximately " ++ intToString (fst (getContextSwitches systemMonitor)) ++ " times per second at this load level.".

Definition cpuTheoryResponse : string :=
  "📚 <strong>CPU & Process Management:</strong><br><br>" ++ nl ++
  "                    The CPU is managed by the OS kernel's scheduler, which:<br>" ++ nl ++
  "                    • Allocates time slices to processes (time-sharing)<br>" ++ nl ++
  "                    • Handles context switching between processes<br>" ++ nl ++
  "                    • Manages process states (Ready, Running, Waiting, Terminated)<br>" ++ nl ++
  "                    • Uses scheduling algorithms (FCFS, SJF, Round-Robin, Priority)<br><br>" ++ nl ++
  "                    <strong>Your System:</strong> With " ++ Number_toString (Cpu.cores (Metrics.cpu metrics)) ++ " cores, the OS can run " ++ Number_toString (Cpu.cores (Metrics.cpu metrics)) ++ " processes truly simultaneously using parallel processing.".

Definition memoryStatusResponse : string :=
  let memPercent :=
    ext_toFixed 1
      (Num.ext_mul (Num.div (Memory.used (Metrics.memory metrics))
                            (Memory.total (Metrics.memory metrics))) 100) in
  "💾 <strong>Memory Status:</strong><br><br>" ++ nl ++
  "                    • Used: <strong>" ++ toFixed 2 (Memory.used (Metrics.memory metrics)) ++ " GB</strong> (" ++ memPercent ++ "%)<br>" ++ nl ++
  "                    • Available: " ++ toFixed 2 (Memory.available (Metrics.memory metrics)) ++ " GB<br>" ++ nl ++
  "                    • Total: " ++ Number_toString (Memory.total (Metrics.memory metrics)) ++ " GB<br><br>" ++ nl ++
  "                    " ++ (if stringGt memPercent 80 then "⚠️ Memory pressure detected! " else "✅ Memory levels are healthy. ") ++ nl ++
  "                    <br><br><strong>OS Theory:</strong> The OS uses virtual memory management with paging. Your system likely uses a page size of 4KB, and the Memory Management Unit (MMU) handles address translation from virtual to physical addresses.".

Definition memoryTheoryResponse : string :=
  "📚 <strong>Virtual Memory Management:</strong><br><br>" ++ nl ++
  "                    Virtual memory is a memory management technique where:<br>" ++ nl ++
  "                    • Each process has its own virtual address space<br>" ++ nl ++
  "                    • The OS maps virtual addresses to physical RAM<br>" ++ nl ++
  "                    • Pages can be swapped to disk when RAM is full<br>" ++ nl ++
  "                    • Provides memory isolation between processes<br><br>" ++ nl ++
  "                    <strong>Benefits:</strong><br>" ++ nl ++
  "                    • Programs can use more memory than physically available<br>" ++ nl ++
  "                    • Security through process isolation<br>" ++ nl ++
  "                    • Efficient memory utilization through demand paging".

(** The body of the [forEach] callback and the loop over
    [topProcesses], with [i] the index of [proc]. *)
Definition processLine (i : nat) (proc : Process.t) : string :=
  natToString (i + 1) ++ ". <strong>" ++ Process.name proc ++ "</strong><br>" ++ nl ++
  "                        &nbsp;&nbsp;&nbsp;PID: " ++ intToString (Process.pid proc) ++ " | CPU: " ++ toFixed 1 (Process.cpu proc) ++ "% | Memory: " ++ toFixed 0 (Process.memory proc) ++ " MB<br>".

Fixpoint forEachProcess
  (i : nat) (procs : list Process.t) (response : string) : string :=
  match procs with
  | [] => response
  | proc :: procs' =>
      forEachProcess (S i) procs' (response ++ processLine i proc)
  end.

Definition topProcessesResponse : string :=
  let topProcesses := firstn 5 (Metrics.processes metrics) in
  let response :=
    "🔝 <strong>Top Resource-Consuming Processes:</strong><br><br>" in
  let response := forEachProcess 0 topProcesses response in
  response ++
  "<br><strong>OS Theory:</strong> Each process has a Process Control Block (PCB) containing its state, program counter, CPU registers, memory allocation, and I/O status. The OS maintains these in a process table.".

Definition processTheoryResponse : string :=
  "📚 <strong>Process Management:</strong><br><br>" ++ nl ++
  "                    A process is a program in execution. The OS manages processes through:<br>" ++ nl ++
  "                    • <strong>Process Creation:</strong> fork() and exec() system calls<br>" ++ nl ++
  "                    • <strong>Process Scheduling:</strong> Deciding which process runs when<br>" ++ nl ++
  "                    • <strong>Inter-Process Communication (IPC):</strong> Pipes, message queues, shared memory<br>" ++ nl ++
  "                    • <strong>Process Synchronization:</strong> Semaphores, mutexes, monitors<br><br>" ++ nl ++
  "                    Currently, your system is managing " ++ natToString (List.length (Metrics.processes metrics)) ++ "+ active processes.".

Definition diskResponse : string :=
  let diskTotal :=
    Disk.read (Metrics.disk metrics) + Disk.write (Metrics.disk metrics) in
  "💿 <strong>Disk I/O Status:</strong><br><br>" ++ nl ++
  "                • Read Speed: " ++ toFixed 1 (Disk.read (Metrics.disk metrics)) ++ " MB/s<br>" ++ nl ++
  "                • Write Speed: " ++ toFixed 1 (Disk.write (Metrics.disk metrics)) ++ " MB/s<br>" ++ nl ++
  "                • Total Activity: " ++ toFixed 1 diskTotal ++ " MB/s<br>" ++ nl ++
  "                • Disk Usage: " ++ Number_toString (Disk.usage (Metrics.disk metrics)) ++ "%<br><br>" ++ nl ++
  "                <strong>OS Theory:</strong> The I/O subsystem uses buffering, caching, and scheduling algorithms (like SCAN or C-LOOK) to optimize disk operations. Device drivers abstract hardware details, and the file system manages data organization on disk.".

Definition networkResponse : string :=
  let networkTotal :=
    Network.sent (Metrics.network metrics)
    + Network.received (Metrics.network metrics) in
  "🌐 <strong>Network Activity:</strong><br><br>" ++ nl ++
  "                • Upload: " ++ toFixed 0 (Network.sent (Metrics.network metrics)) ++ " KB/s<br>" ++ nl ++
  "                • Download: " ++ toFixed 0 (Network.received (Metrics.network metrics)) ++ " KB/s<br>" ++ nl ++
  "                • Total: " ++ toFixed 0 networkTotal ++ " KB/s<br><br>" ++ nl ++
  "                <strong>OS Theory:</strong> The OS network stack implements the TCP/IP protocol suite, handling packet routing, socket management, and network device drivers. System calls like socket(), bind(), listen(), and accept() enable network communication.".

Definition optimizationResponse : string :=
  let recommendations :=
    "💡 <strong>Optimization Recommendations:</strong><br><br>" in
  let recommendations :=
    if Num.gt (Cpu.usage (Metrics.cpu metrics)) 70 then
      recommendations ++
      "• <strong>CPU:</strong> High usage detected. Close unnecessary applications or consider upgrading to a faster processor.<br>"
    else recommendations in
  let recommendations :=
    if Num.ext_gt (Num.div (Memory.used (Metrics.memory metrics))
                           (Memory.total (Metrics.memory metrics))) 0.7 then
      recommendations ++
      "• <strong>Memory:</strong> Consider closing browser tabs or adding more RAM. Enable virtual memory if not already active.<br>"
    else recommendations in
  recommendations ++
  "• <strong>General:</strong> Keep only essential startup programs, update drivers regularly, and run disk cleanup.<br><br>" ++ nl ++
  "                <strong>OS Theory:</strong> Modern operating systems use dynamic priority adjustment and load balancing to optimize performance automatically.".

Definition schedulingResponse : string :=
  "📚 <strong>CPU Scheduling Algorithms:</strong><br><br>" ++ nl ++
  "                • <strong>FCFS (First-Come-First-Serve):</strong> Simple but can cause convoy effect<br>" ++ nl ++
  "                • <strong>SJF (Shortest Job First):</strong> Optimal average waiting time<br>" ++ nl ++
  "                • <strong>Round-Robin:</strong> Fair time-sharing with time quantum<br>" ++ nl ++
  "                • <strong>Priority Scheduling:</strong> Based on process priority<br>" ++ nl ++
  "                • <strong>Multilevel Queue:</strong> Different queues for different process types<br><br>" ++ nl ++
  "                Most modern OS use a combination of these algorithms for optimal performance.".

Definition deadlockResponse : string :=
  "📚 <strong>Deadlock in OS:</strong><br><br>" ++ nl ++
  "                Deadlock occurs when processes wait indefinitely. Four conditions must hold:<br>" ++ nl ++
  "                • <strong>Mutual Exclusion:</strong> Resources cannot be shared<br>" ++ nl ++
  "                • <strong>Hold and Wait:</strong> Process holding resources requests more<br>" ++ nl ++
  "                • <strong>No Preemption:</strong> Resources cannot be forcibly taken<br>" ++ nl ++
  "                • <strong>Circular Wait:</strong> Circular chain of processes waiting<br><br>" ++ nl ++
  "                <strong>Prevention:</strong> Break any one of these conditions<br>" ++ nl ++
  "                <strong>Detection:</strong> Use resource allocation graphs<br>" ++ nl ++
  "                <strong>Recovery:</strong> Process termination or resource preemption".

Definition fileSystemResponse : string :=
  "📚 <strong>File System Management:</strong><br><br>" ++ nl ++
  "                File systems organize data on storage devices:<br>" ++ nl ++
  "                • <strong>Structure:</strong> Directories (folders) and files<br>" ++ nl ++
  "                • <strong>Allocation Methods:</strong> Contiguous, Linked, Indexed<br>" ++ nl ++
  "                • <strong>Common Types:</strong> NTFS (Windows), ext4 (Linux), APFS (macOS)<br>" ++ nl ++
  "                • <strong>Operations:</strong> Create, Read, Write, Delete, Seek<br><br>" ++ nl ++
  "                The file system maintains metadata (permissions, timestamps, size) and uses caching to improve performance.".

Definition defaultResponse : string :=
  "I can help you with:<br><br>" ++ nl ++
  "            • <strong>Current Status:</strong> " ++ dq ++ "What is my CPU usage?" ++ dq ++ ", " ++ dq ++ "Show memory usage" ++ dq ++ "<br>" ++ nl ++
  "            • <strong>Process Info:</strong> " ++ dq ++ "Which processes are using most resources?" ++ dq ++ "<br>" ++ nl ++
  "            • <strong>OS Concepts:</strong> " ++ dq ++ "Explain virtual memory" ++ dq ++ ", " ++ dq ++ "What is process scheduling?" ++ dq ++ "<br>" ++ nl ++
  "            • <strong>Optimization:</strong> " ++ dq ++ "How can I improve performance?" ++ dq ++ "<br><br>" ++ nl ++
  "            Try asking about CPU, memory, processes, disk I/O, networking, or OS theory concepts!".

(** The keyword tests of the categories. *)
Definition cpuKeyword (lowerMessage : string) : bool :=
  includes lowerMessage "cpu" || includes lowerMessage "processor".
Definition cpuStatusKeyword (lowerMessage : string) : bool :=
  includes lowerMessage "usage" || includes lowerMessage "current".
Definition cpuTheoryKeyword (lowerMessage : string) : bool :=
  includes lowerMessage "explain" || includes lowerMessage "what is".
Definition memoryKeyword (lowerMessage : string) : bool :=
  includes lowerMessage "memory" || includes lowerMessage "ram".
Definition memoryStatusKeyword (lowerMessage : string) : bool :=
  includes lowerMessage "usage" || includes lowerMessage "current"
  || includes lowerMessage "show".
Definition memoryTheoryKeyword (lowerMessage : string) : bool :=
  includes lowerMessage "virtual" || includes lowerMessage "explain".
Definition processKeyword (lowerMessage : string) : bool :=
  includes lowerMessage "process" || includes lowerMessage "application"
  || includes lowerMessage "top".
Definition processTopKeyword (lowerMessage : string) : bool :=
  includes lowerMessage "using" || includes lowerMessage "consuming"
  || includes lowerMessage "most".
Definition processTheoryKeyword (lowerMessage : string) : bool :=
  includes lowerMessage "explain" || includes lowerMessage "what is".
Definition diskKeyword (lowerMessage : string) : bool :=
  includes lowerMessage "disk" || includes lowerMessage "i/o"
  || includes lowerMessage "storage".
Definition networkKeyword (lowerMessage : string) : bool :=
  includes lowerMessage "network" || includes lowerMessage "internet".
Definition optimizationKeyword (lowerMessage : string) : bool :=
  includes lowerMessage "optimize" || includes lowerMessage "improve"
  || includes lowerMessage "recommend".
Definition schedulingKeyword (lowerMessage : string) : bool :=
  includes lowerMessage "schedul" || includes lowerMessage "algorithm".
Definition deadlockKeyword (lowerMessage : string) : bool :=
  includes lowerMessage "deadlock".
Definition fileSystemKeyword (lowerMessage : string) : bool :=
  includes lowerMessage "file system" || includes lowerMessage "filesystem".

(** The [if] blocks of [generateResponse], one per category. *)
Definition cpuQueries (lowerMessage : string) : option string :=
  if cpuKeyword lowerMessage then
    if cpuStatusKeyword lowerMessage then Some cpuStatusResponse
    else if cpuTheoryKeyword lowerMessage then Some cpuTheoryResponse
    else None
  else None.

Definition memoryQueries (lowerMessage : string) : option string :=
  if memoryKeyword lowerMessage then
    if memoryStatusKeyword lowerMessage then Some memoryStatusResponse
    else if memoryTheoryKeyword lowerMessage then Some memoryTheoryResponse
    else None
  else None.

Definition processQueries (lowerMessage : string) : option string :=
  if processKeyword lowerMessage then
    if processTopKeyword lowerMessage then Some topProcessesResponse
    else if processTheoryKeyword lowerMessage then Some processTheoryResponse
    else None
  else None.

Definition diskQueries (lowerMessage : string) : option string :=
  if diskKeyword lowerMessage then Some diskResponse else None.

Definition networkQueries (lowerMessage : string) : option string :=
  if networkKeyword lowerMessage then Some networkResponse else None.

Definition optimizationQueries (lowerMessage : string) : option string :=
  if optimizationKeyword lowerMessage then Some optimizationResponse
  else None.

Definition schedulingQueries (lowerMessage : string) : option string :=
  if schedulingKeyword lowerMessage then Some schedulingResponse else None.

Definition deadlockQueries (lowerMessage : string) : option string :=
  if deadlockKeyword lowerMessage then Some deadlockResponse else None.

Definition fileSystemQueries (lowerMessage : string) : option string :=
  if fileSystemKeyword lowerMessage then Some fileSystemResponse else None.

(** The statements of [generateResponse] that follow the CPU block. *)
Definition afterCpuQueries (lowerMessage : string) : string :=
  memoryQueries lowerMessage ?>
  processQueries lowerMessage ?>
  diskQueries lowerMessage ?>
  networkQueries lowerMessage ?>
  optimizationQueries lowerMessage ?>
  schedulingQueries lowerMessage ?>
  deadlockQueries lowerMessage ?>
  fileSystemQueries lowerMessage ?>
  defaultResponse.

(** [generateResponse(userMessage)] *)
Definition generateResponse (userMessage : string) : string :=
  let lowerMessage := toLowerCase userMessage in
  cpuQueries lowerMessage ?> afterCpuQueries lowerMessage.

End Responses.

End Chat.

(* ===================================================================== *)
(** ** dashboard.js: class DashboardController *)
(* ===================================================================== *)

(** [CONFIG.THRESHOLDS] *)
Module Thresholds.
Record t : Type := { WARNING : Q; DANGER : Q }.
End Thresholds.

Definition THRESHOLDS : Thresholds.t :=
  {| Thresholds.WARNING := 60; Thresholds.DANGER := 80 |}.

Module Dashboard.

Import Str.
Local Open Scope string_scope.

(** The methods only assign properties of the cached elements and never
    read them back: a method is modelled by the values it assigns.  A
    [style.width] is either a text, or a number to which ['%'] is appended
    (the decimal form of that number is not modelled). *)
Inductive Width : Type :=
| WidthText (text : string)
| WidthPercent (value : Q).

Record Gauge : Type := {
  textContent : string;
  width : Width;
  className : string
}.

Record MemoryGauge : Type := {
  memoryValue : string;
  memoryLabel : string;
  memoryWidth : Width;
  memoryClassName : string
}.

Record View : Type := {
  cpuView : Gauge;
  memoryView : MemoryGauge;
  diskView : Gauge;
  networkView : Gauge;
  processTableBody : string;
  alertContainer : string
}.

Section Controller.

Variable cfg : Config.t.
Variable thresholds : Thresholds.t.
Variable draws : nat -> Q.

(** [getProgressClass(value)], for the strings its callers pass. *)
Definition getProgressClass (value : string) : string :=
  if stringGt value (Thresholds.DANGER thresholds) then "danger"
  else if stringGt value (Thresholds.WARNING thresholds) then "warning"
  else EmptyString.

(** [updateCPU(cpu)] *)
Definition updateCPU (cpu : Cpu.t) : Gauge :=
  let cpuPercent := toFixed 1 (Cpu.usage cpu) in
  {| textContent := cpuPercent ++ "%";
     width := WidthText (cpuPercent ++ "%");
     className := "progress-fill " ++ getProgressClass cpuPercent |}.

(** [updateMemory(memory)] *)
Definition updateMemory (memory : Memory.t) : MemoryGauge :=
  let memoryPercent :=
    ext_toFixed 1
      (Num.ext_mul (Num.div (Memory.used memory) (Memory.total memory)) 100) in
  {| memoryValue := memoryPercent ++ "%";
     memoryLabel :=
       toFixed 1 (Memory.used memory) ++ " GB used of " ++ Number_toString (Memory.total memory) ++ " GB";
     memoryWidth := WidthText (memoryPercent ++ "%");
     memoryClassName := "progress-fill " ++ getProgressClass memoryPercent |}.

(** [updateDisk(disk)] *)
Definition updateDisk (disk : Disk.t) : Gauge :=
  let diskTotal := Disk.read disk + Disk.write disk in
  {| textContent := toFixed 1 diskTotal ++ " MB/s";
     width := WidthPercent (Num.Math_min 100 (diskTotal / 200 * 100));
     className := "progress-fill" |}.

(** [updateNetwork(network)] *)
Definition updateNetwork (network : Network.t) : Gauge :=
  let networkTotal := Network.sent network + Network.received network in
  {| textContent := toFixed 0 networkTotal ++ " KB/s";
     width := WidthPercent (Num.Math_min 100 (networkTotal / 1000 * 100));
     className := "progress-fill" |}.

(** The string that a [status] is in the source. *)
Definition statusText (status : Status) : string :=
  match status with
  | high => "high"
  | medium => "medium"
  | low => "low"
  end.

(** [updateProcessTable(processes)]: the row of one process and the rows
    joined with the empty separator. *)
Definition processRow (proc : Process.t) : string :=
  nl ++
  "            <tr>" ++ nl ++
  "                <td>" ++ Process.name proc ++ "</td>" ++ nl ++
  "                <td>" ++ intToString (Process.pid proc) ++ "</td>" ++ nl ++
  "                <td>" ++ toFixed 1 (Process.cpu proc) ++ "%</td>" ++ nl ++
  "                <td>" ++ toFixed 0 (Process.memory proc) ++ " MB</td>" ++ nl ++
  "                <td><span class=" ++ dq ++ "status-badge status-" ++ statusText (Process.status proc) ++ dq ++ ">" ++ statusText (Process.status proc) ++ "</span></td>" ++ nl ++
  "            </tr>" ++ nl ++
  "        ".

Definition updateProcessTable (processes : list Process.t) : string :=
  String.concat EmptyString (map processRow processes).

(** [updateAlerts()] *)
Definition alertBanner (alert : Alert.t) : string :=
  "<div class=" ++ dq ++ "alert-banner" ++ dq ++ ">" ++ nl ++
  "                    <span class=" ++ dq ++ "alert-icon" ++ dq ++ ">⚠️</span>" ++ nl ++
  "                    <span>" ++ Alert.message alert ++ "</span>" ++ nl ++
  "                </div>".

Definition updateAlerts (systemMonitor : State) : string :=
  let alerts := fst (checkAlerts cfg systemMonitor) in
  if (0 <? List.length alerts)%nat then
    String.concat EmptyString (map alertBanner alerts)
  else EmptyString.

(** [updateDashboard()] *)
Definition updateDashboard (systemMonitor : State) : View :=
  let metrics := fst (getMetrics systemMonitor) in
  {| cpuView := updateCPU (Metrics.cpu metrics);
     memoryView := updateMemory (Metrics.memory metrics);
     diskView := updateDisk (Metrics.disk metrics);
     networkView := updateNetwork (Metrics.network metrics);
     processTableBody := updateProcessTable (Metrics.processes metrics);
     alertContainer := updateAlerts systemMonitor |}.

(** The callback that [startMonitoring()] hands to [setInterval]:
    [updateMetrics()] followed by [updateDashboard()]. *)
Definition intervalCallback (systemMonitor : State) : View * State :=
  let systemMonitor' := snd (updateMetrics cfg draws systemMonitor) in
  (updateDashboard systemMonitor', systemMonitor').

End Controller.

End Dashboard.

(* ===================================================================== *)
(** ** Vocabulary of the properties *)
(* ===================================================================== *)

(** The draws of the real generator lie in [[0, 1)]. *)
Definition unit_draws (draws : nat -> Q) : Prop :=
  forall i, 0 <= draws i /\ draws i < 1.

(** Computations that leave [this.metrics] as it is. *)
Definition readsOnly {A : Type} (c : Run A) : Prop :=
  forall st, metrics (snd (c st)) = metrics st.

(** The process table after one call of [updateMetrics()]. *)
Definition tableAfterTick (cfg : Config.t) (draws : nat -> Q) (st : State)
  : list Process.t :=
  Metrics.processes (metrics (snd (updateMetrics cfg draws st))).

(** The documented ranges of the snapshot. *)
Definition bounded (m : Metrics.t) : Prop :=
  (5 <= Cpu.usage (Metrics.cpu m) /\ Cpu.usage (Metrics.cpu m) <= 95)
  /\ (2 <= Memory.used (Metrics.memory m)
      /\ Memory.used (Metrics.memory m) <= 14)
  /\ Memory.available (Metrics.memory m)
     = Memory.total (Metrics.memory m) - Memory.used (Metrics.memory m).

(** Descending order on the [cpu] field. *)
Definition cpuDescending (a b : Process.t) : Prop :=
  Process.cpu b <= Process.cpu a.

(** Number of alerts of a given type. *)
Definition countType (type : string) (alerts : list Alert.t) : nat :=
  List.length (filter (fun a => String.eqb (Alert.type a) type) alerts).

(** [(memory.used / memory.total) * 100] *)
Definition memoryPercent (m : Metrics.t) : Num.ext :=
  Num.ext_mul (Num.div (Memory.used (Metrics.memory m))
                       (Memory.total (Metrics.memory m))) 100.

(** Some category after CPU has one of its keywords in the message. *)
Definition laterCategoryMatches (lowerMessage : string) : bool :=
  Chat.memoryKeyword lowerMessage || Chat.processKeyword lowerMessage
  || Chat.diskKeyword lowerMessage || Chat.networkKeyword lowerMessage
  || Chat.optimizationKeyword lowerMessage
  || Chat.schedulingKeyword lowerMessage
  || Chat.deadlockKeyword lowerMessage
  || Chat.fileSystemKeyword lowerMessage.

(** Every [return] of [generateResponse]. *)
Definition allResponses (systemMonitor : State) : list string :=
  [ Chat.cpuStatusResponse systemMonitor;
    Chat.cpuTheoryResponse systemMonitor;
    Chat.memoryStatusResponse systemMonitor;
    Chat.memoryTheoryResponse;
    Chat.topProcessesResponse systemMonitor;
    Chat.processTheoryResponse systemMonitor;
    Chat.diskResponse systemMonitor;
    Chat.networkResponse systemMonitor;
    Chat.optimizationResponse systemMonitor;
    Chat.schedulingResponse;
    Chat.deadlockResponse;
    Chat.fileSystemResponse;
    Chat.defaultResponse ].

(** The state [st] with its [cpu] record replaced. *)
Definition withCpu (cpu : Cpu.t) (st : State) : State := {|
  metrics := {| Metrics.cpu := cpu;
                Metrics.memory := Metrics.memory (metrics st);
                Metrics.disk := Metrics.disk (metrics st);
                Metrics.network := Metrics.network (metrics st);
                Metrics.processes := Metrics.processes (metrics st) |};
  randomCalls := randomCalls st
|}.

(** The rule "one draw, two thresholds" for the load tag. *)
Definition thresholdTag (draw : Q) : Status :=
  if Num.gt draw 0.8 then high
  else if Num.gt draw 0.5 then medium else low.

(** A stream of draws that are all 0.3 except draws 7 and 10, which are
    0.9.  In the first tick, draws 0 to 5 go to the scalar metrics and
    draws 6 to 11 to the first process: pid, cpu (draw 7), memory, the two
    draws of [status] (draws 9 and 10) and the draw of [state].  The first
    process has the greatest [cpu] and heads the table. *)
Definition drawsLowThenHigh (i : nat) : Q :=
  if ((i =? 7) || (i =? 10))%nat then 0.9 else 0.3.

(** A stream of draws that are all 0.5 except the [cpu] draws of the first
    two processes in the first tick: draw 7 is 0.7 and draw 13 is 0.9. *)
Definition drawsSharedPid (i : nat) : Q :=
  if (i =? 13)%nat then 0.9 else if (i =? 7)%nat then 0.7 else 0.5.

(** Configurations that a validating constructor would have to refuse. *)
Definition invalidConfig (cfg : Config.t) : Prop :=
  Config.TOTAL_MEMORY (Config.SYSTEM cfg) <= 0
  \/ Config.CPU_CORES (Config.SYSTEM cfg) <= 0
  \/ Config.ALERT_THRESHOLD_CPU (Config.MONITORING cfg) <= 0
  \/ Config.ALERT_THRESHOLD_MEMORY (Config.MONITORING cfg) <= 0.

(** A configuration with no memory, no cores, a zero and a negative
    threshold. *)
Definition zeroConfig : Config.t := {|
  Config.MONITORING := {|
    Config.UPDATE_INTERVAL := 2000;
    Config.ALERT_THRESHOLD_CPU := 0;
    Config.ALERT_THRESHOLD_MEMORY := -85;
    Config.MAX_PROCESSES_DISPLAY := 8
  |};
  Config.SYSTEM := {|
    Config.CPU_CORES := 0;
    Config.CPU_FREQUENCY := 3.5;
    Config.TOTAL_MEMORY := 0;
    Config.DISK_SIZE := 512
  |};
  Config.PROCESS_NAMES := Config.PROCESS_NAMES CONFIG
|}.

(* ===================================================================== *)
(** ** Vocabulary of the further properties *)
(* ===================================================================== *)

(** The fields of the snapshot that [updateMetrics()] never assigns. *)
Definition fixedFields (m : Metrics.t) : Q * Q * Q * Q :=
  (Cpu.cores (Metrics.cpu m), Cpu.frequency (Metrics.cpu m),
   Memory.total (Metrics.memory m), Disk.usage (Metrics.disk m)).

(** The stream whose draws are all 0.5. *)
Definition halfDraws (i : nat) : Q := 0.5.

(** The shipped configuration with room for every process in the table. *)
Definition wideConfig : Config.t := {|
  Config.MONITORING := {|
    Config.UPDATE_INTERVAL := 2000;
    Config.ALERT_THRESHOLD_CPU := 85;
    Config.ALERT_THRESHOLD_MEMORY := 85;
    Config.MAX_PROCESSES_DISPLAY := 20
  |};
  Config.SYSTEM := Config.SYSTEM CONFIG;
  Config.PROCESS_NAMES := Config.PROCESS_NAMES CONFIG
|}.

(** The array that [CONFIG.PROCESS_NAMES.map] builds in the call of
    [generateProcesses()] that [updateMetrics()] makes from the state [st]:
    one process per catalog name, in catalog order, from the draws that
    follow the six draws of the scalar metrics. *)
Definition generatedInTick (cfg : Config.t) (draws : nat -> Q) (st : State)
  : list Process.t :=
  fst (mapRun (makeProcess draws) (Config.PROCESS_NAMES cfg)
         {| metrics := metrics st; randomCalls := 6 + randomCalls st |}).

Module ChatSpec.

Import Chat.
Local Open Scope string_scope.

(** The statements of [generateResponse] that follow the process block
    and those that follow the memory block. *)
Definition afterProcessQueries (systemMonitor : State) (lowerMessage : string)
  : string :=
  diskQueries systemMonitor lowerMessage ?>
  networkQueries systemMonitor lowerMessage ?>
  optimizationQueries systemMonitor lowerMessage ?>
  schedulingQueries lowerMessage ?>
  deadlockQueries lowerMessage ?>
  fileSystemQueries lowerMessage ?>
  defaultResponse.

Definition afterMemoryQueries (systemMonitor : State) (lowerMessage : string)
  : string :=
  processQueries systemMonitor lowerMessage ?>
  afterProcessQueries systemMonitor lowerMessage.

(** No block of [generateResponse] returns. *)
Definition noBlockResponds (systemMonitor : State) (lowerMessage : string)
  : Prop :=
  cpuQueries systemMonitor lowerMessage = None
  /\ memoryQueries systemMonitor lowerMessage = None
  /\ processQueries systemMonitor lowerMessage = None
  /\ diskKeyword lowerMessage = false
  /\ networkKeyword lowerMessage = false
  /\ optimizationKeyword lowerMessage = false
  /\ schedulingKeyword lowerMessage = false
  /\ deadlockKeyword lowerMessage = false
  /\ fileSystemKeyword lowerMessage = false.

(** The first byte of every response text but the default one: the lead
    byte of a four-byte UTF-8 sequence (each of them opens with an emoji). *)
Definition startsWithEmoji (s : string) : Prop :=
  exists rest, s = String "240"%char rest.

(** The lines that the [forEach] loop of the process block appends,
    numbered from [i + 1]. *)
Fixpoint processLines (i : nat) (procs : list Process.t) : string :=
  match procs with
  | [] => EmptyString
  | proc :: procs' => processLine i proc ++ processLines (S i) procs'
  end.

(** The fixed text before and after those lines. *)
Definition topProcessesHeader : string :=
  "🔝 <strong>Top Resource-Consuming Processes:</strong><br><br>".

Definition topProcessesFooter : string :=
  "<br><strong>OS Theory:</strong> Each process has a Process Control Block (PCB) containing its state, program counter, CPU registers, memory allocation, and I/O status. The OS maintains these in a process table.".

End ChatSpec.

(** The state [st] with its [memory] record replaced. *)
Definition withMemory (memory : Memory.t) (st : State) : State := {|
  metrics := {| Metrics.cpu := Metrics.cpu (metrics st);
                Metrics.memory := memory;
                Metrics.disk := Metrics.disk (metrics st);
                Metrics.network := Metrics.network (metrics st);
                Metrics.processes := Metrics.processes (metrics st) |};
  randomCalls := randomCalls st
|}.

(** The class that [getProgressClass] gives a number. *)
Definition progressClassOf (thresholds : Thresholds.t) (v : Q) : string :=
  if Num.gt v (Thresholds.DANGER thresholds) then "danger"
  else if Num.gt v (Thresholds.WARNING thresholds) then "warning"
  else EmptyString.

Module DashboardSpec.

Import Str.
Local Open Scope string_scope.

(** The text of a table row with the given cell texts: a [<tr>] element
    with one [<td>] element per cell, laid out as in the template of
    [updateProcessTable]. *)
Definition cell (text : string) : string :=
  "                <td>" ++ text ++ "</td>" ++ nl.

Definition row (cells : list string) : string :=
  nl ++ "            <tr>" ++ nl ++
  String.concat EmptyString (map cell cells) ++
  "            </tr>" ++ nl ++ "        ".

(** The badge of a status. *)
Definition badge (status : string) : string :=
  "<span class=" ++ dq ++ "status-badge status-" ++ status ++ dq ++ ">" ++ status ++ "</span>".

(** The row of one process: its name, pid, cpu, memory and status. *)
Definition rowOf (proc : Process.t) : string :=
  row [ Process.name proc;
        intToString (Process.pid proc);
        toFixed 1 (Process.cpu proc) ++ "%";
        toFixed 0 (Process.memory proc) ++ " MB";
        badge (Dashboard.statusText (Process.status proc)) ].

(** The number of positions of [s] at which [sub] begins. *)
Fixpoint occurrences (sub s : string) : nat :=
  match s with
  | EmptyString => if prefix sub s then 1 else 0
  | String _ s' => (if prefix sub s then 1 else 0) + occurrences sub s'
  end.

(** The tag that opens a row. *)
Definition rowTag : string := "<tr>".

(** Texts that cannot complete a row tag begun before them, texts that
    cannot begin a row tag completed after them, and texts without the
    character that opens a tag. *)
Definition safeStart (s : string) : Prop :=
  match s with
  | EmptyString => True
  | String c _ => c <> "t"%char /\ c <> "r"%char /\ c <> ">"%char
  end.

Fixpoint safeEnd (s : string) : Prop :=
  match s with
  | EmptyString => True
  | String c EmptyString => c <> "<"%char /\ c <> "t"%char /\ c <> "r"%char
  | String _ s' => safeEnd s'
  end.

Fixpoint plain (s : string) : Prop :=
  match s with
  | EmptyString => True
  | String c s' => c <> "<"%char /\ plain s'
  end.

(** A process whose name is a row tag. *)
Definition tagNamedProcess : Process.t := {|
  Process.name := "<tr>";
  Process.pid := 1000;
  Process.cpu := 1;
  Process.memory := 1;
  Process.status := low;
  Process.state := Some running
|}.

End DashboardSpec.

Module FixedSpec.

Import Str.

(** Strings of decimal digits, and the integer they spell after the
    digits of [acc]. *)
Fixpoint allDigits (s : string) : Prop :=
  match s with
  | EmptyString => True
  | String c s' => digitValue c <> None /\ allDigits s'
  end.

Fixpoint spelled (s : string) (acc : Z) : Z :=
  match s with
  | EmptyString => acc
  | String c s' =>
      match digitValue c with
      | Some d => spelled s' (acc * 10 + d)%Z
      | None => acc
      end
  end.

(** A string that is empty or begins with something else than a digit. *)
Definition stopsDigits (rest : string) : Prop :=
  match rest with
  | EmptyString => True
  | String c _ => digitValue c = None
  end.

(** The number that [x.toFixed(digits)] prints: the nearest multiple of
    [10^-digits], the larger in magnitude on a tie. *)
Definition fixedValue (digits : nat) (x : Q) : Q :=
  let v := inject_Z (fixedInteger digits x) / inject_Z (10 ^ Z.of_nat digits) in
  if Num.lt x 0 then - v else v.

(** The integer that a decimal numeral spells after the digits of [acc]. *)
Fixpoint uintValue (d : Decimal.uint) (acc : Z) : Z :=
  match d with
  | Decimal.Nil => acc
  | Decimal.D0 l => uintValue l (acc * 10 + 0)
  | Decimal.D1 l => uintValue l (acc * 10 + 1)
  | Decimal.D2 l => uintValue l (acc * 10 + 2)
  | Decimal.D3 l => uintValue l (acc * 10 + 3)
  | Decimal.D4 l => uintValue l (acc * 10 + 4)
  | Decimal.D5 l => uintValue l (acc * 10 + 5)
  | Decimal.D6 l => uintValue l (acc * 10 + 6)
  | Decimal.D7 l => uintValue l (acc * 10 + 7)
  | Decimal.D8 l => uintValue l (acc * 10 + 8)
  | Decimal.D9 l => uintValue l (acc * 10 + 9)
  end%Z.

End FixedSpec.

(* ===================================================================== *)
(** ** Numbers: comparisons and clamping *)
(* ===================================================================== *)

Module NumFacts.

Import Num.

Lemma gt_true (a b : Q) : gt a b = true <-> b < a.
Proof.
  unfold gt. rewrite negb_true_iff, <- not_true_iff_false, Qle_bool_iff.
  split; [apply Qnot_le_lt | apply Qlt_not_le].
Qed.

Lemma gt_false (a b : Q) : gt a b = false <-> a <= b.
Proof.
  unfold gt. rewrite negb_false_iff. apply Qle_bool_iff.
Qed.

Lemma lt_true (a b : Q) : lt a b = true <-> a < b.
Proof. apply (gt_true b a). Qed.

(** The clamp [Math.max(lo, Math.min(hi, x))] lands in [[lo, hi]]. *)
Lemma clamp_bounds (lo hi x : Q) :
  lo <= hi ->
  lo <= Math_max lo (Math_min hi x) /\ Math_max lo (Math_min hi x) <= hi.
Proof.
  intros Hlh. unfold Math_max, Math_min.
  destruct (lt x hi) eqn:Hx.
  - apply lt_true in Hx.
    destruct (lt lo x) eqn:Hl.
    + apply lt_true in Hl. split; apply Qlt_le_weak; assumption.
    + split; [apply Qle_refl | assumption].
  - destruct (lt lo hi) eqn:Hl.
    + split; [assumption | apply Qle_refl].
    + split; [apply Qle_refl | assumption].
Qed.

(** [Math.floor(r * k)] for a draw [r] is an index below [k]. *)
Lemma floor_draw_range (r : Q) (k : Z) :
  (0 < k)%Z -> 0 <= r -> r < 1 ->
  (0 <= Math_floor (r * inject_Z k) < k)%Z.
Proof.
  intros Hk H0 H1. unfold Math_floor. split.
  - change 0%Z with (Qfloor 0). apply Qfloor_resp_le.
    apply Qmult_le_0_compat; [exact H0|].
    change 0 with (inject_Z 0). rewrite <- Zle_Qle. lia.
  - rewrite Zlt_Qlt. eapply Qle_lt_trans; [apply Qfloor_le|].
    setoid_replace (inject_Z k) with (1 * inject_Z k) at 2 by ring.
    apply Qmult_lt_compat_r; [|exact H1].
    change 0 with (inject_Z 0). rewrite <- Zlt_Qlt. exact Hk.
Qed.

(** With a non-zero total the memory percentage is the rational
    [used / total * 100]. *)
Lemma memoryPercent_finite (m : Metrics.t) :
  ~ Memory.total (Metrics.memory m) == 0 ->
  memoryPercent m
  = Fin (Memory.used (Metrics.memory m) / Memory.total (Metrics.memory m)
         * 100).
Proof.
  intro Ht. unfold memoryPercent, div.
  destruct (Qeq_bool (Memory.total (Metrics.memory m)) 0) eqn:E.
  - apply Qeq_bool_iff in E. contradiction.
  - reflexivity.
Qed.

End NumFacts.

(* ===================================================================== *)
(** ** Arrays: sorting, slicing and searching *)
(* ===================================================================== *)

Module ArrFacts.

Section Sort.
Context {A : Type}.
Variable compareFn : A -> A -> Q.

Lemma insert_perm (x : A) (l : list A) :
  Permutation (x :: l) (Arr.insert compareFn x l).
Proof.
  induction l as [|y l IH]; cbn.
  - apply Permutation_refl.
  - destruct (Qle_bool (compareFn x y) 0).
    + apply Permutation_refl.
    + eapply perm_trans; [apply perm_swap|]. apply perm_skip, IH.
Qed.

Lemma sort_perm (l : list A) : Permutation l (Arr.sort compareFn l).
Proof.
  induction l as [|x l IH]; cbn.
  - apply perm_nil.
  - eapply perm_trans; [apply perm_skip, IH | apply insert_perm].
Qed.

Lemma sort_length (l : list A) :
  List.length (Arr.sort compareFn l) = List.length l.
Proof. symmetry. apply Permutation_length, sort_perm. Qed.

End Sort.

Lemma firstn_incl {A : Type} (n : nat) (l : list A) (x : A) :
  In x (firstn n l) -> In x l.
Proof.
  revert l. induction n as [|n IH]; intros [|y l]; cbn; try tauto.
  intros [->|H]; [left; reflexivity | right; apply IH, H].
Qed.

Lemma firstn_sorted {A : Type} (R : A -> A -> Prop) (n : nat) (l : list A) :
  StronglySorted R l -> StronglySorted R (firstn n l).
Proof.
  revert l. induction n as [|n IH]; intros l Hs; cbn.
  - constructor.
  - destruct l as [|x l]; [constructor|].
    inversion Hs as [|x' l' Hl Hx]; subst.
    constructor; [apply IH, Hl|].
    rewrite Forall_forall in *. intros z Hz.
    apply Hx. eapply firstn_incl, Hz.
Qed.


(** [find] returns the first element that passes the test. *)
Lemma find_first {A : Type} (f : A -> bool) (l : list A) (r : A) :
  Arr.find f l = Some r ->
  f r = true
  /\ exists before after,
       l = before ++ r :: after /\ forall x, In x before -> f x = false.
Proof.
  unfold Arr.find. induction l as [|y l IH]; cbn; [discriminate|].
  destruct (f y) eqn:E.
  - intros [= ->]. split; [exact E|].
    exists [], l. split; [reflexivity | intros x []].
  - intro H. destruct (IH H) as (Hr & before & after & -> & Hb).
    split; [exact Hr|]. exists (y :: before), after.
    split; [reflexivity|]. intros x [<-|Hx]; [exact E | apply Hb, Hx].
Qed.

Lemma find_present {A : Type} (f : A -> bool) (l : list A) (x : A) :
  In x l -> f x = true -> exists r, Arr.find f l = Some r.
Proof.
  intros Hin Hx. unfold Arr.find.
  destruct (find f l) as [r|] eqn:E; [exists r; reflexivity|].
  rewrite (find_none f l E x Hin) in Hx. discriminate.
Qed.

Lemma find_absent {A : Type} (f : A -> bool) (l : list A) :
  (forall x, In x l -> f x = false) -> Arr.find f l = None.
Proof.
  intro Hall. unfold Arr.find.
  destruct (find f l) as [r|] eqn:E; [|reflexivity].
  apply find_some in E. destruct E as [Hin Hr].
  rewrite (Hall r Hin) in Hr. discriminate.
Qed.

End ArrFacts.

(* ===================================================================== *)
(** ** The comparator of the process table *)
(* ===================================================================== *)

Lemma cpuDescending_trans (a b c : Process.t) :
  cpuDescending a b -> cpuDescending b c -> cpuDescending a c.
Proof.
  unfold cpuDescending. intros Hab Hbc. exact (Qle_trans _ _ _ Hbc Hab).
Qed.

Lemma byCpuDescending_le (a b : Process.t) :
  Qle_bool (byCpuDescending a b) 0 = true <-> cpuDescending a b.
Proof.
  unfold byCpuDescending, cpuDescending. rewrite Qle_bool_iff.
  split; intro H.
  - apply Qle_minus_iff in H. apply Qle_minus_iff.
    setoid_replace (Process.cpu a + - Process.cpu b)
      with (0 + - (Process.cpu b - Process.cpu a)) by ring. exact H.
  - apply Qle_minus_iff. apply Qle_minus_iff in H.
    setoid_replace (0 + - (Process.cpu b - Process.cpu a))
      with (Process.cpu a + - Process.cpu b) by ring. exact H.
Qed.

Lemma byCpuDescending_gt (a b : Process.t) :
  Qle_bool (byCpuDescending a b) 0 = false -> cpuDescending b a.
Proof.
  intro H. unfold cpuDescending.
  destruct (Qlt_le_dec (Process.cpu a) (Process.cpu b)) as [Hlt|Hle].
  - apply Qlt_le_weak, Hlt.
  - apply byCpuDescending_le in Hle. congruence.
Qed.

Lemma insert_sorted (x : Process.t) (l : list Process.t) :
  StronglySorted cpuDescending l ->
  StronglySorted cpuDescending (Arr.insert byCpuDescending x l).
Proof.
  induction l as [|y l IH]; intro Hs; cbn.
  - constructor; constructor.
  - inversion Hs as [|y' l' Hl Hy]; subst.
    destruct (Qle_bool (byCpuDescending x y)) eqn:E.
    + apply byCpuDescending_le in E.
      constructor; [exact Hs|]. constructor; [exact E|].
      eapply Forall_impl; [|exact Hy].
      intros z Hz. exact (cpuDescending_trans _ _ _ E Hz).
    + apply byCpuDescending_gt in E.
      constructor; [apply IH, Hl|].
      eapply Permutation_Forall; [apply ArrFacts.insert_perm|].
      constructor; assumption.
Qed.

Lemma sort_sorted (l : list Process.t) :
  StronglySorted cpuDescending (Arr.sort byCpuDescending l).
Proof.
  induction l as [|x l IH]; cbn.
  - constructor.
  - apply insert_sorted, IH.
Qed.

(* ===================================================================== *)
(** ** Effects of the methods on the state *)
(* ===================================================================== *)

Lemma readsOnly_ret {A : Type} (a : A) : readsOnly (ret a).
Proof. intro st. reflexivity. Qed.

Lemma readsOnly_bind {A B : Type} (c : Run A) (k : A -> Run B) :
  readsOnly c -> (forall a, readsOnly (k a)) -> readsOnly (bind c k).
Proof.
  intros Hc Hk st. unfold bind. rewrite Hk. apply Hc.
Qed.

Lemma readsOnly_mapRun {A B : Type} (f : A -> Run B) (l : list A) :
  (forall x, readsOnly (f x)) -> readsOnly (mapRun f l).
Proof.
  intro Hf. induction l as [|x l IH]; simpl.
  - apply readsOnly_ret.
  - apply readsOnly_bind; [apply Hf|]. intro y.
    apply readsOnly_bind; [apply IH|]. intro ys. apply readsOnly_ret.
Qed.

Lemma mapRun_length {A B : Type} (f : A -> Run B) (l : list A) (st : State) :
  List.length (fst (mapRun f l st)) = List.length l.
Proof.
  revert st. induction l as [|x l IH]; intro st; cbn.
  - reflexivity.
  - unfold bind. cbn [ret fst List.length]. f_equal. apply IH.
Qed.

Lemma mapRun_Forall {A B : Type} (P : B -> Prop) (f : A -> Run B) (l : list A) :
  (forall x st, P (fst (f x st))) ->
  forall st, Forall P (fst (mapRun f l st)).
Proof.
  intro Hf. induction l as [|x l IH]; intro st; cbn.
  - constructor.
  - unfold bind. cbn [ret fst]. constructor; [apply Hf | apply IH].
Qed.

Section Effects.

Variable cfg : Config.t.
Variable draws : nat -> Q.

Lemma readsOnly_random : readsOnly (Math_random draws).
Proof. intro st. reflexivity. Qed.

Lemma readsOnly_randomStatus : readsOnly (randomStatus draws).
Proof.
  unfold randomStatus. apply readsOnly_bind; [apply readsOnly_random|].
  intro r. destruct (Num.gt r 0.8); [apply readsOnly_ret|].
  apply readsOnly_bind; [apply readsOnly_random|].
  intro r'. apply readsOnly_ret.
Qed.

Lemma readsOnly_getRandomProcessState :
  readsOnly (getRandomProcessState draws).
Proof.
  unfold getRandomProcessState.
  apply readsOnly_bind; [apply readsOnly_random|].
  intro r. apply readsOnly_ret.
Qed.

Lemma readsOnly_makeProcess (name : string) :
  readsOnly (makeProcess draws name).
Proof.
  unfold makeProcess.
  repeat (apply readsOnly_bind;
          [first [ apply readsOnly_random
                 | apply readsOnly_randomStatus
                 | apply readsOnly_getRandomProcessState ]
          | intro ]).
  apply readsOnly_ret.
Qed.

Lemma readsOnly_generateProcesses : readsOnly (generateProcesses cfg draws).
Proof.
  unfold generateProcesses. apply readsOnly_bind.
  - apply readsOnly_mapRun, readsOnly_makeProcess.
  - intro. apply readsOnly_ret.
Qed.

(** The fields written by [updateMetrics()]. *)
Lemma updateMetrics_cpu (st : State) :
  Cpu.usage (Metrics.cpu (metrics (snd (updateMetrics cfg draws st))))
  = Num.Math_max 5 (Num.Math_min 95
      (Cpu.usage (Metrics.cpu (metrics st))
       + (draws (randomCalls st) - 0.5) * 10)).
Proof.
  unfold updateMetrics, bind.
  cbn [modifyMetrics readMetrics Math_random fst snd metrics randomCalls].
  rewrite readsOnly_generateProcesses. reflexivity.
Qed.

Lemma updateMetrics_memory (st : State) :
  let m' := Metrics.memory (metrics (snd (updateMetrics cfg draws st))) in
  Memory.used m'
  = Num.Math_max 2 (Num.Math_min 14
      (Memory.used (Metrics.memory (metrics st))
       + (draws (S (randomCalls st)) - 0.5) * 0.5))
  /\ Memory.total m' = Memory.total (Metrics.memory (metrics st))
  /\ Memory.available m' = Memory.total m' - Memory.used m'.
Proof.
  unfold updateMetrics, bind.
  cbn [modifyMetrics readMetrics Math_random fst snd metrics randomCalls].
  rewrite readsOnly_generateProcesses. repeat split.
Qed.

(** The new table is the result of [generateProcesses()], run after the
    six draws for the scalar fields. *)
Lemma updateMetrics_processes (st : State) :
  exists st',
    randomCalls st' = (6 + randomCalls st)%nat
    /\ tableAfterTick cfg draws st = fst (generateProcesses cfg draws st').
Proof.
  unfold tableAfterTick, updateMetrics, bind.
  cbn [modifyMetrics readMetrics Math_random fst snd metrics randomCalls].
  eexists. split; [|reflexivity]. reflexivity.
Qed.

Lemma updateMetrics_bounded (st : State) :
  bounded (metrics (snd (updateMetrics cfg draws st))).
Proof.
  unfold bounded.
  destruct (updateMetrics_memory st) as (Hu & _ & Ha).
  rewrite updateMetrics_cpu, Hu. repeat split;
    try (apply NumFacts.clamp_bounds; unfold Qle; cbn; lia).
  rewrite Ha, Hu. reflexivity.
Qed.

Lemma ticks_bounded (n : nat) :
  forall st, bounded (metrics st) -> bounded (metrics (ticks cfg draws n st)).
Proof.
  induction n as [|n IH]; intros st Hst; cbn [ticks].
  - exact Hst.
  - apply IH, updateMetrics_bounded.
Qed.

Lemma constructor_bounded : bounded (constructor cfg).
Proof.
  unfold bounded, constructor. cbn.
  repeat split; unfold Qle; cbn; lia.
Qed.

(** The table built by [generateProcesses()]. *)
Lemma generateProcesses_sorted (st : State) :
  StronglySorted cpuDescending (fst (generateProcesses cfg draws st)).
Proof.
  unfold generateProcesses, bind. cbn [ret fst].
  apply ArrFacts.firstn_sorted, sort_sorted.
Qed.

Lemma generateProcesses_length (st : State) :
  List.length (fst (generateProcesses cfg draws st))
  = Nat.min (List.length (Config.PROCESS_NAMES cfg))
            (Config.MAX_PROCESSES_DISPLAY (Config.MONITORING cfg)).
Proof.
  unfold generateProcesses, bind, Arr.slice0. cbn [ret fst].
  rewrite length_firstn, ArrFacts.sort_length, mapRun_length.
  apply Nat.min_comm.
Qed.

Lemma generateProcesses_incl (st : State) (proc : Process.t) :
  In proc (fst (generateProcesses cfg draws st)) ->
  In proc (fst (mapRun (makeProcess draws) (Config.PROCESS_NAMES cfg) st)).
Proof.
  unfold generateProcesses, bind, Arr.slice0. cbn [ret fst]. intro H.
  apply ArrFacts.firstn_incl in H.
  eapply Permutation_in; [apply Permutation_sym, ArrFacts.sort_perm | exact H].
Qed.

Lemma makeProcess_pid_range (name : string) (st : State) :
  unit_draws draws ->
  (1000 <= Process.pid (fst (makeProcess draws name st)) <= 9999)%Z.
Proof.
  intro Hd. unfold makeProcess, bind.
  cbn [Math_random ret fst snd Process.pid].
  destruct (Hd (randomCalls st)) as [H0 H1].
  pose proof (NumFacts.floor_draw_range
                (draws (randomCalls st)) 9000 eq_refl H0 H1) as H.
  change (inject_Z 9000) with 9000 in H. lia.
Qed.

Lemma tableAfterTick_sorted (st : State) :
  StronglySorted cpuDescending (tableAfterTick cfg draws st).
Proof.
  destruct (updateMetrics_processes st) as (st' & _ & ->).
  apply generateProcesses_sorted.
Qed.

End Effects.

Lemma drawsLowThenHigh_unit : unit_draws drawsLowThenHigh.
Proof.
  intro i. unfold drawsLowThenHigh.
  destruct ((i =? 7) || (i =? 10))%nat; split; unfold Qle, Qlt; cbn; lia.
Qed.


(* ===================================================================== *)
(** ** The blocks of generateResponse *)
(* ===================================================================== *)

Module ChatFacts.

Import Chat.

Lemma cpuQueries_falls_through (st : State) (l : string) :
  cpuStatusKeyword l = false -> cpuTheoryKeyword l = false ->
  cpuQueries st l = None.
Proof.
  intros Hs Ht. unfold cpuQueries. rewrite Hs, Ht.
  destruct (cpuKeyword l); reflexivity.
Qed.

Lemma afterCpuQueries_default (st : State) (l : string) :
  laterCategoryMatches l = false -> afterCpuQueries st l = defaultResponse.
Proof.
  unfold laterCategoryMatches. intro H.
  do 7 (apply orb_false_elim in H; destruct H as [H ?]).
  unfold afterCpuQueries, memoryQueries, processQueries, diskQueries,
    networkQueries, optimizationQueries, schedulingQueries, deadlockQueries,
    fileSystemQueries.
  repeat match goal with E : _ = false |- _ => rewrite E; clear E end.
  reflexivity.
Qed.

Lemma generateResponse_classified (st : State) (userMessage : string) :
  In (generateResponse st userMessage) (allResponses st).
Proof.
  unfold generateResponse, afterCpuQueries, cpuQueries, memoryQueries,
    processQueries, diskQueries, networkQueries, optimizationQueries,
    schedulingQueries, deadlockQueries, fileSystemQueries, allResponses.
  generalize (Str.toLowerCase userMessage). intro l.
  generalize (cpuStatusResponse st), (cpuTheoryResponse st),
    (memoryStatusResponse st), memoryTheoryResponse,
    (topProcessesResponse st), (processTheoryResponse st),
    (diskResponse st), (networkResponse st), (optimizationResponse st),
    schedulingResponse, deadlockResponse, fileSystemResponse,
    defaultResponse.
  intros.
  repeat match goal with
         | |- context [if ?b then _ else _] =>
             destruct b; cbv beta iota delta [orContinue]
         end;
    cbv [In]; tauto.
Qed.

End ChatFacts.

(* ===================================================================== *)
(** ** Properties of the monitor *)
(* ===================================================================== *)

(** C1: after any number [N >= 0] of calls of [updateMetrics()] on the
    freshly constructed monitor, whatever the random draws are,
    [cpu.usage] lies in [[5, 95]], [memory.used] lies in [[2, 14]] and
    [memory.available] is [memory.total - memory.used]. *)
Theorem tick_keeps_bounds (cfg : Config.t) (draws : nat -> Q) (N : nat) :
  let m := metrics (ticks cfg draws N (start cfg)) in
  (5 <= Cpu.usage (Metrics.cpu m) /\ Cpu.usage (Metrics.cpu m) <= 95)
  /\ (2 <= Memory.used (Metrics.memory m)
      /\ Memory.used (Metrics.memory m) <= 14)
  /\ Memory.available (Metrics.memory m)
     = Memory.total (Metrics.memory m) - Memory.used (Metrics.memory m).
Proof.
  apply (ticks_bounded cfg draws N (start cfg)), constructor_bounded.
Qed.

(** C2: [checkAlerts()] returns exactly one cpu alert when
    [cpu.usage > ALERT_THRESHOLD_CPU] and none otherwise, exactly one
    memory alert when [(memory.used / memory.total) * 100 >
    ALERT_THRESHOLD_MEMORY] and none otherwise, each whatever the other
    metric is; with both, the cpu alert comes first; there is nothing else
    in the result, so its length is 0, 1 or 2; the state is not changed;
    both thresholds are 85 in the shipped configuration. *)
Theorem checkAlerts_cpu_memory (cfg : Config.t) (st : State) :
  let m := metrics st in
  let alerts := fst (checkAlerts cfg st) in
  let cpuThreshold := Config.ALERT_THRESHOLD_CPU (Config.MONITORING cfg) in
  let memoryThreshold :=
    Config.ALERT_THRESHOLD_MEMORY (Config.MONITORING cfg) in
  (countType "cpu" alerts = 1%nat <-> cpuThreshold < Cpu.usage (Metrics.cpu m))
  /\ (countType "cpu" alerts = 0%nat
      <-> ~ cpuThreshold < Cpu.usage (Metrics.cpu m))
  /\ (countType "memory" alerts = 1%nat
      <-> Num.ext_gt (memoryPercent m) memoryThreshold = true)
  /\ (countType "memory" alerts = 0%nat
      <-> Num.ext_gt (memoryPercent m) memoryThreshold = false)
  /\ (~ Memory.total (Metrics.memory m) == 0 ->
      (countType "memory" alerts = 1%nat
       <-> memoryThreshold
           < Memory.used (Metrics.memory m) / Memory.total (Metrics.memory m)
             * 100))
  /\ (cpuThreshold < Cpu.usage (Metrics.cpu m) ->
      Num.ext_gt (memoryPercent m) memoryThreshold = true ->
      alerts = [cpuAlert; memoryAlert])
  /\ List.length alerts
     = (countType "cpu" alerts + countType "memory" alerts)%nat
  /\ (List.length alerts <= 2)%nat
  /\ snd (checkAlerts cfg st) = st
  /\ Config.ALERT_THRESHOLD_CPU (Config.MONITORING CONFIG) = 85
  /\ Config.ALERT_THRESHOLD_MEMORY (Config.MONITORING CONFIG) = 85.
Proof.
  intros m alerts cpuThreshold memoryThreshold.
  set (cpuHigh := Num.gt (Cpu.usage (Metrics.cpu m)) cpuThreshold).
  set (memoryHigh := Num.ext_gt (memoryPercent m) memoryThreshold).
  assert (Ha : alerts = (if cpuHigh then [cpuAlert] else [])
                        ++ (if memoryHigh then [memoryAlert] else [])).
  { subst alerts cpuHigh memoryHigh m cpuThreshold memoryThreshold.
    unfold checkAlerts, bind, memoryPercent. cbn [readMetrics ret fst snd].
    destruct (Num.gt _ _); destruct (Num.ext_gt _ _); reflexivity. }
  assert (Hc : cpuHigh = true <-> cpuThreshold < Cpu.usage (Metrics.cpu m))
    by apply NumFacts.gt_true.
  rewrite Ha. clear Ha.
  repeat match goal with |- _ /\ _ => split end.
  - rewrite <- Hc. destruct cpuHigh, memoryHigh; cbn; split; congruence.
  - rewrite <- Hc. destruct cpuHigh, memoryHigh; cbn; split; congruence.
  - destruct cpuHigh, memoryHigh; cbn; split; congruence.
  - destruct cpuHigh, memoryHigh; cbn; split; congruence.
  - intro Ht. rewrite <- NumFacts.gt_true.
    assert (Hm : memoryHigh
                 = Num.gt (Memory.used (Metrics.memory m)
                           / Memory.total (Metrics.memory m) * 100)
                          memoryThreshold).
    { subst memoryHigh. rewrite (NumFacts.memoryPercent_finite m Ht).
      reflexivity. }
    rewrite <- Hm. destruct cpuHigh, memoryHigh; cbn; split; congruence.
  - intros Hcpu Hmem. apply Hc in Hcpu. rewrite Hcpu, Hmem. reflexivity.
  - destruct cpuHigh, memoryHigh; reflexivity.
  - destruct cpuHigh, memoryHigh; cbn; lia.
  - reflexivity.
  - reflexivity.
  - reflexivity.
Qed.

(** C5: after every call of [updateMetrics()], from any state and for any
    random draws, the process table is sorted in descending order of
    [cpu] and its length is the minimum of the number of configured
    process names and [MAX_PROCESSES_DISPLAY]; with the shipped
    configuration that is [min(15, 8) = 8]. *)
Theorem tick_table_sorted_and_sized :
  (forall (cfg : Config.t) (draws : nat -> Q) (st : State),
     Sorted cpuDescending (tableAfterTick cfg draws st)
     /\ List.length (tableAfterTick cfg draws st)
        = Nat.min (List.length (Config.PROCESS_NAMES cfg))
                  (Config.MAX_PROCESSES_DISPLAY (Config.MONITORING cfg)))
  /\ List.length (Config.PROCESS_NAMES CONFIG) = 15%nat
  /\ Config.MAX_PROCESSES_DISPLAY (Config.MONITORING CONFIG) = 8%nat
  /\ (forall (draws : nat -> Q) (st : State),
        List.length (tableAfterTick CONFIG draws st) = 8%nat).
Proof.
  split; [|split; [reflexivity | split; [reflexivity|]]].
  - intros cfg draws st. split.
    + apply StronglySorted_Sorted, tableAfterTick_sorted.
    + destruct (updateMetrics_processes cfg draws st) as (st' & _ & ->).
      apply generateProcesses_length.
  - intros draws st.
    destruct (updateMetrics_processes CONFIG draws st) as (st' & _ & ->).
    rewrite generateProcesses_length. reflexivity.
Qed.

(** C6, as stated, fails: with the draws [drawsLowThenHigh] the first
    process of the first tick gets the tag [medium], while the threshold
    rule maps every draw of the stream to [low] or [high]. *)
Lemma status_is_not_one_draw :
  unit_draws drawsLowThenHigh
  /\ (exists proc,
        nth_error (tableAfterTick CONFIG drawsLowThenHigh (start CONFIG)) 0
        = Some proc
        /\ Process.status proc = medium)
  /\ (forall i, thresholdTag (drawsLowThenHigh i) <> medium).
Proof.
  split; [apply drawsLowThenHigh_unit|]. split.
  - eexists. split; [vm_compute; reflexivity | reflexivity].
  - intro i. unfold drawsLowThenHigh.
    destruct ((i =? 7) || (i =? 10))%nat; vm_compute; discriminate.
Qed.

(** C6, amended: the [status] of a generated process comes from up to two
    successive draws, the fourth and fifth of the process: if the first of
    them exceeds 0.8 the tag is [high] and the second is not made;
    otherwise the tag is [medium] if the second exceeds 0.5 and [low] if
    not. *)
Theorem status_from_two_draws
  (draws : nat -> Q) (name : string) (st : State) :
  let i := randomCalls st in
  let result := makeProcess draws name st in
  Process.status (fst result)
  = (if Num.gt (draws (3 + i)%nat) 0.8 then high
     else if Num.gt (draws (4 + i)%nat) 0.5 then medium else low)
  /\ randomCalls (snd result)
     = (if Num.gt (draws (3 + i)%nat) 0.8 then 5 + i else 6 + i)%nat.
Proof.
  intros i result. subst i result.
  unfold makeProcess, randomStatus, getRandomProcessState, bind.
  cbn [Math_random fst snd randomCalls metrics Nat.add].
  destruct (Num.gt (draws (S (S (S (randomCalls st))))) 0.8) eqn:E;
    cbn [Math_random ret fst snd randomCalls metrics Process.status];
    rewrite ?E;
    cbn [Math_random ret fst snd randomCalls metrics Process.status];
    split; reflexivity.
Qed.

(** C7, as stated, fails: the configuration [zeroConfig] is invalid in
    every respect the rule names, and construction completes normally. *)
Lemma constructor_accepts_invalid_config :
  Config.TOTAL_MEMORY (Config.SYSTEM zeroConfig) <= 0
  /\ Config.CPU_CORES (Config.SYSTEM zeroConfig) <= 0
  /\ Config.ALERT_THRESHOLD_CPU (Config.MONITORING zeroConfig) <= 0
  /\ Config.ALERT_THRESHOLD_MEMORY (Config.MONITORING zeroConfig) <= 0
  /\ invalidConfig zeroConfig
  /\ new_SystemMonitor zeroConfig = Normal (constructor zeroConfig)
  /\ ~ (exists error, new_SystemMonitor zeroConfig = Throw error).
Proof.
  repeat match goal with |- _ /\ _ => split end;
    try (unfold Qle; cbn; lia).
  - left. unfold Qle; cbn; lia.
  - reflexivity.
  - intros [error H]. discriminate H.
Qed.

(** C7, amended: construction validates nothing and never fails; for
    every configuration it produces the monitor with the seed state, whose
    [cores], [frequency] and [total] are copied from the configuration. *)
Theorem constructor_never_fails (cfg : Config.t) :
  exists m : Metrics.t,
    new_SystemMonitor cfg = Normal m
    /\ Metrics.cpu m
       = {| Cpu.usage := 35;
            Cpu.cores := Config.CPU_CORES (Config.SYSTEM cfg);
            Cpu.frequency := Config.CPU_FREQUENCY (Config.SYSTEM cfg) |}
    /\ Metrics.memory m
       = {| Memory.used := 8.5;
            Memory.total := Config.TOTAL_MEMORY (Config.SYSTEM cfg);
            Memory.available :=
              Config.TOTAL_MEMORY (Config.SYSTEM cfg) - 8.5 |}
    /\ Metrics.disk m = {| Disk.read := 0; Disk.write := 0; Disk.usage := 45 |}
    /\ Metrics.network m = {| Network.sent := 0; Network.received := 0 |}
    /\ Metrics.processes m = [].
Proof.
  exists (constructor cfg). repeat split.
Qed.

(** C9: [getProcessByPID(pid)] returns an entry of the current table whose
    [pid] is the argument when the table has one, returns nothing when no
    entry has that [pid], and leaves the state as it was. *)
Theorem getProcessByPID_found_or_not (pid : Z) (st : State) :
  let table := Metrics.processes (metrics st) in
  let result := getProcessByPID pid st in
  snd result = st
  /\ ((exists proc, In proc table /\ Process.pid proc = pid) ->
      exists proc,
        fst result = Some proc /\ In proc table /\ Process.pid proc = pid)
  /\ ((forall proc, In proc table -> Process.pid proc <> pid) ->
      fst result = None).
Proof.
  intros table result. subst result.
  unfold getProcessByPID, bind. cbn [readMetrics ret fst snd]. fold table.
  split; [reflexivity|]. split.
  - intros (proc & Hin & Hpid).
    destruct (ArrFacts.find_present
                (fun proc => (Process.pid proc =? pid)%Z) table proc Hin)
      as [r Hr]; [apply Z.eqb_eq, Hpid|].
    exists r. split; [exact Hr|].
    destruct (ArrFacts.find_first _ _ _ Hr) as (Hk & before & after & Ht & _).
    split; [|apply Z.eqb_eq, Hk].
    rewrite Ht. apply in_or_app. right. left. reflexivity.
  - intro Hnone. apply ArrFacts.find_absent.
    intros x Hx. apply Z.eqb_neq, Hnone, Hx.
Qed.


(* ===================================================================== *)
(** ** Properties of the response engine *)
(* ===================================================================== *)

(** C3: when the lower-cased message contains "cpu" or "processor" but
    none of "usage", "current", "explain", "what is", the CPU block of
    [generateResponse] returns nothing and the later categories are tried
    in their priority order: memory (status text, then theory text),
    process (top processes, then theory text), disk, network,
    optimization, scheduling, deadlock, file system; the response is the
    text of the first of them that answers, and the default text when no
    later category has a keyword in the message. *)
Theorem cpu_without_secondary_falls_through
  (systemMonitor : State) (userMessage : string) :
  let lowerMessage := Str.toLowerCase userMessage in
  Chat.cpuKeyword lowerMessage = true ->
  Chat.cpuStatusKeyword lowerMessage = false ->
  Chat.cpuTheoryKeyword lowerMessage = false ->
  Chat.cpuQueries systemMonitor lowerMessage = None
  /\ Chat.generateResponse systemMonitor userMessage
     = (if Chat.memoryKeyword lowerMessage
           && Chat.memoryStatusKeyword lowerMessage
        then Chat.memoryStatusResponse systemMonitor
        else if Chat.memoryKeyword lowerMessage
                && Chat.memoryTheoryKeyword lowerMessage
        then Chat.memoryTheoryResponse
        else if Chat.processKeyword lowerMessage
                && Chat.processTopKeyword lowerMessage
        then Chat.topProcessesResponse systemMonitor
        else if Chat.processKeyword lowerMessage
                && Chat.processTheoryKeyword lowerMessage
        then Chat.processTheoryResponse systemMonitor
        else if Chat.diskKeyword lowerMessage
        then Chat.diskResponse systemMonitor
        else if Chat.networkKeyword lowerMessage
        then Chat.networkResponse systemMonitor
        else if Chat.optimizationKeyword lowerMessage
        then Chat.optimizationResponse systemMonitor
        else if Chat.schedulingKeyword lowerMessage
        then Chat.schedulingResponse
        else if Chat.deadlockKeyword lowerMessage
        then Chat.deadlockResponse
        else if Chat.fileSystemKeyword lowerMessage
        then Chat.fileSystemResponse
        else Chat.defaultResponse)
  /\ (laterCategoryMatches lowerMessage = false ->
      Chat.generateResponse systemMonitor userMessage = Chat.defaultResponse).
Proof.
  intros lowerMessage _ Hs Ht.
  pose proof (ChatFacts.cpuQueries_falls_through systemMonitor _ Hs Ht) as Hc.
  assert (Hg : Chat.generateResponse systemMonitor userMessage
               = Chat.afterCpuQueries systemMonitor lowerMessage).
  { unfold Chat.generateResponse. fold lowerMessage. rewrite Hc. reflexivity. }
  split; [exact Hc|]. split.
  - rewrite Hg.
    unfold Chat.afterCpuQueries, Chat.memoryQueries, Chat.processQueries,
      Chat.diskQueries, Chat.networkQueries, Chat.optimizationQueries,
      Chat.schedulingQueries, Chat.deadlockQueries, Chat.fileSystemQueries.
    repeat match goal with
           | |- context [if ?b then _ else _] =>
               lazymatch b with
               | context [if _ then _ else _] => fail
               | context [andb] => fail
               | _ => destruct b; cbn [Chat.orContinue andb]; try reflexivity
               end
           end.
  - intro Hl. rewrite Hg. apply ChatFacts.afterCpuQueries_default, Hl.
Qed.

(** Messages that pass the CPU block: "cpu disk" is answered by the disk
    block, and so is "CPU network disk", disk coming before network;
    "CPU network" is answered by the network block, "Show the processor
    memory" by the memory block, and "Tell me about the CPU" reaches the
    default text. *)
Lemma cpu_without_secondary_falls_through_witness :
  Chat.generateResponse (start CONFIG) "cpu disk"
  = Chat.diskResponse (start CONFIG)
  /\ Chat.generateResponse (start CONFIG) "CPU network disk"
     = Chat.diskResponse (start CONFIG)
  /\ Chat.generateResponse (start CONFIG) "CPU network"
     = Chat.networkResponse (start CONFIG)
  /\ Chat.generateResponse (start CONFIG) "Show the processor memory"
     = Chat.memoryStatusResponse (start CONFIG)
  /\ Chat.generateResponse (start CONFIG) "Tell me about the CPU"
     = Chat.defaultResponse.
Proof.
  repeat match goal with |- _ /\ _ => split end.
  - rewrite (proj1 (proj2 (cpu_without_secondary_falls_through
                             (start CONFIG) "cpu disk"
                             eq_refl eq_refl eq_refl))).
    reflexivity.
  - rewrite (proj1 (proj2 (cpu_without_secondary_falls_through
                             (start CONFIG) "CPU network disk"
                             eq_refl eq_refl eq_refl))).
    reflexivity.
  - rewrite (proj1 (proj2 (cpu_without_secondary_falls_through
                             (start CONFIG) "CPU network"
                             eq_refl eq_refl eq_refl))).
    reflexivity.
  - rewrite (proj1 (proj2 (cpu_without_secondary_falls_through
                             (start CONFIG) "Show the processor memory"
                             eq_refl eq_refl eq_refl))).
    reflexivity.
  - exact (proj2 (proj2 (cpu_without_secondary_falls_through
                           (start CONFIG) "Tell me about the CPU"
                           eq_refl eq_refl eq_refl)) eq_refl).
Defined.

(** C4: [generateResponse] returns a string for every message and every
    state: it has no failing path, and its result is always one of its
    thirteen response texts; for the empty message it is the default text,
    whatever the state. *)
Theorem generateResponse_total_and_default_on_empty :
  (forall (systemMonitor : State) (userMessage : string),
     exists response : string,
       Chat.generateResponse systemMonitor userMessage = response
       /\ In response (allResponses systemMonitor))
  /\ (forall systemMonitor : State,
        Chat.generateResponse systemMonitor EmptyString
        = Chat.defaultResponse).
Proof.
  split.
  - intros st userMessage. eexists. split; [reflexivity|].
    apply ChatFacts.generateResponse_classified.
  - intro st. unfold Chat.generateResponse. cbn [Str.toLowerCase].
    rewrite ChatFacts.cpuQueries_falls_through by reflexivity.
    apply ChatFacts.afterCpuQueries_default. reflexivity.
Qed.

(** C8: for a state whose [cpu] record is usage 72.3, 8 cores, 3.5 GHz,
    the response to "What is my current CPU usage?" is the CPU status
    text, which contains "72.3%", "8 logical processors", "3.5 GHz" and
    the high-usage clause, and not the normal-usage clause. *)
Theorem cpu_usage_query_golden (st : State) :
  let snapshot :=
    withCpu {| Cpu.usage := 72.3; Cpu.cores := 8; Cpu.frequency := 3.5 |} st in
  let response :=
    Chat.generateResponse snapshot "What is my current CPU usage?" in
  response = Chat.cpuStatusResponse snapshot
  /\ Str.includes response "72.3%" = true
  /\ Str.includes response "8 logical processors" = true
  /\ Str.includes response "3.5 GHz" = true
  /\ Num.gt 72.3 70 = true
  /\ Str.includes response "⚠️ CPU usage is high. " = true
  /\ Str.includes response "✅ CPU usage is normal. " = false.
Proof.
  intros snapshot response.
  assert (Hr : response = Chat.cpuStatusResponse snapshot) by reflexivity.
  split; [exact Hr|]. rewrite Hr. clear Hr response.
  vm_compute. repeat split.
Qed.

(* ===================================================================== *)
(** ** Evaluation on concrete inputs *)
(* ===================================================================== *)

Example toFixed_one_decimal : Str.toFixed 1 72.3 = "72.3"%string.
Proof. reflexivity. Qed.

Example toFixed_tie_rounds_up : Str.toFixed 1 0.05 = "0.1"%string.
Proof. reflexivity. Qed.

Example toFixed_two_decimals : Str.toFixed 2 8.5 = "8.50"%string.
Proof. reflexivity. Qed.

Example toFixed_integer : Str.toFixed 0 499.5 = "500"%string.
Proof. reflexivity. Qed.

Example toFixed_negative : Str.toFixed 1 (- 0.04) = "-0.0"%string.
Proof. reflexivity. Qed.

Example Number_toString_frequency : Str.Number_toString 3.5 = "3.5"%string.
Proof. reflexivity. Qed.

Example toLowerCase_query :
  Str.toLowerCase "What is my CPU?" = "what is my cpu?"%string.
Proof. reflexivity. Qed.

Example contextSwitches_seed : fst (getContextSwitches (start CONFIG)) = 3500%Z.
Proof. reflexivity. Qed.

Example no_alert_at_start : fst (checkAlerts CONFIG (start CONFIG)) = [].
Proof. reflexivity. Qed.

Example memory_alert_without_total :
  fst (checkAlerts zeroConfig (start zeroConfig)) = [cpuAlert; memoryAlert].
Proof. reflexivity. Qed.

Example explain_virtual_memory :
  Chat.generateResponse (start CONFIG) "explain virtual memory"
  = Chat.memoryTheoryResponse.
Proof. reflexivity. Qed.

Example tell_me_about_deadlock :
  Chat.generateResponse (start CONFIG) "tell me about deadlock"
  = Chat.deadlockResponse.
Proof. reflexivity. Qed.

Example first_process_tagged_medium :
  map (fun p => (Process.name p, Process.cpu p, Process.status p))
      (firstn 2 (tableAfterTick CONFIG drawsLowThenHigh (start CONFIG)))
  = [("chrome.exe"%string, 0.9 * 25, medium);
     ("code.exe"%string, 0.3 * 25, low)].
Proof. reflexivity. Qed.

Example shared_pid_table :
  map (fun p => (Process.name p, Process.pid p, Process.cpu p))
      (firstn 2 (tableAfterTick CONFIG drawsSharedPid (start CONFIG)))
  = [("code.exe"%string, 5500%Z, 0.9 * 25);
     ("chrome.exe"%string, 5500%Z, 0.7 * 25)].
Proof. reflexivity. Qed.

(* ===================================================================== *)
(** ** Further properties of the monitor *)
(* ===================================================================== *)

Lemma halfDraws_unit : unit_draws halfDraws.
Proof. intro i. unfold halfDraws. split; lra. Qed.

Lemma PROCESS_NAMES_distinct : NoDup (Config.PROCESS_NAMES CONFIG).
Proof.
  apply (NoDup_count_occ' string_dec). intros x Hx.
  cbn in Hx.
  repeat (destruct Hx as [<-|Hx]; [vm_compute; reflexivity|]).
  destruct Hx.
Qed.

(** The clamp moves a value that is in range by no more than the step. *)
Lemma clamp_step (lo hi x d step : Q) :
  lo <= x -> x <= hi -> - step <= d -> d <= step ->
  x - step <= Num.Math_max lo (Num.Math_min hi (x + d))
  /\ Num.Math_max lo (Num.Math_min hi (x + d)) <= x + step.
Proof.
  intros Hlo Hhi Hd1 Hd2. unfold Num.Math_max, Num.Math_min.
  destruct (Num.lt (x + d) hi) eqn:E1.
  - apply NumFacts.lt_true in E1.
    destruct (Num.lt lo (x + d)) eqn:E2.
    + split; lra.
    + apply (NumFacts.gt_false (x + d) lo) in E2. split; lra.
  - apply (NumFacts.gt_false hi (x + d)) in E1.
    destruct (Num.lt lo hi) eqn:E2.
    + split; lra.
    + apply (NumFacts.gt_false hi lo) in E2. split; lra.
Qed.

(** [states[Math.floor(r * 4)]] is defined for a draw [r]. *)
Lemma state_defined (r : Q) :
  0 <= r -> r < 1 ->
  exists s, (if (Num.Math_floor (r * 4) <? 0)%Z then None
             else nth_error states (Z.to_nat (Num.Math_floor (r * 4))))
            = Some s.
Proof.
  intros H0 H1.
  pose proof (NumFacts.floor_draw_range r 4 eq_refl H0 H1) as H.
  change (inject_Z 4) with 4 in H.
  destruct (Z.ltb_spec (Num.Math_floor (r * 4)) 0) as [Hneg|_]; [lia|].
  assert (Hi : (Z.to_nat (Num.Math_floor (r * 4)) < 4)%nat) by lia.
  destruct (Z.to_nat (Num.Math_floor (r * 4))) as [|[|[|[|n]]]];
    cbn; eauto; lia.
Qed.

Lemma sorted_app_order {A : Type} (R : A -> A -> Prop) (l1 l2 : list A) :
  StronglySorted R (l1 ++ l2) ->
  forall x y, In x l1 -> In y l2 -> R x y.
Proof.
  induction l1 as [|z l1 IH]; cbn; intros Hs x y Hx Hy; [destruct Hx|].
  inversion Hs as [|z' l' Hl Hz]; subst.
  destruct Hx as [<-|Hx].
  - rewrite Forall_forall in Hz. apply Hz, in_or_app. right. exact Hy.
  - exact (IH Hl x y Hx Hy).
Qed.

Section Ticks.

Variable cfg : Config.t.
Variable draws : nat -> Q.

(** One more tick is [updateMetrics()] on the state reached so far. *)
Lemma ticks_succ_r (n : nat) (st : State) :
  ticks cfg draws (S n) st
  = snd (updateMetrics cfg draws (ticks cfg draws n st)).
Proof.
  revert st. induction n as [|n IH]; intro st.
  - reflexivity.
  - change (ticks cfg draws (S (S n)) st)
      with (ticks cfg draws (S n) (snd (updateMetrics cfg draws st))).
    rewrite IH. reflexivity.
Qed.

Lemma updateMetrics_fixedFields (st : State) :
  fixedFields (metrics (snd (updateMetrics cfg draws st)))
  = fixedFields (metrics st).
Proof.
  unfold updateMetrics, bind.
  cbn [modifyMetrics readMetrics Math_random fst snd metrics randomCalls].
  rewrite readsOnly_generateProcesses. reflexivity.
Qed.

Lemma ticks_fixedFields (N : nat) :
  fixedFields (metrics (ticks cfg draws N (start cfg)))
  = fixedFields (constructor cfg).
Proof.
  induction N as [|N IH]; [reflexivity|].
  rewrite ticks_succ_r, updateMetrics_fixedFields. exact IH.
Qed.

Lemma updateMetrics_rates (st : State) :
  let i := randomCalls st in
  let m' := metrics (snd (updateMetrics cfg draws st)) in
  Disk.read (Metrics.disk m') = draws (2 + i)%nat * 150
  /\ Disk.write (Metrics.disk m') = draws (3 + i)%nat * 100
  /\ Network.sent (Metrics.network m') = draws (4 + i)%nat * 500
  /\ Network.received (Metrics.network m') = draws (5 + i)%nat * 800.
Proof.
  unfold updateMetrics, bind.
  cbn [modifyMetrics readMetrics Math_random fst snd metrics randomCalls].
  rewrite readsOnly_generateProcesses. repeat split.
Qed.

(** The fields of one generated process, by the draws they come from. *)
Lemma makeProcess_fields (name : string) (st : State) :
  let i := randomCalls st in
  let proc := fst (makeProcess draws name st) in
  Process.name proc = name
  /\ Process.pid proc = (1000 + Num.Math_floor (draws i * 9000))%Z
  /\ Process.cpu proc = draws (1 + i)%nat * 25
  /\ Process.memory proc = draws (2 + i)%nat * 1024
  /\ exists j,
       Process.state proc
       = (if (Num.Math_floor (draws j * 4) <? 0)%Z then None
          else nth_error states (Z.to_nat (Num.Math_floor (draws j * 4)))).
Proof.
  unfold makeProcess, randomStatus, getRandomProcessState, bind.
  cbn [Math_random fst snd randomCalls metrics Nat.add].
  destruct (Num.gt (draws (S (S (S (randomCalls st))))) 0.8);
    cbn [Math_random ret fst snd randomCalls metrics Process.name Process.pid
         Process.cpu Process.memory Process.state];
    repeat split; eexists; reflexivity.
Qed.

Lemma makeProcess_calls (name : string) (st : State) :
  (5 + randomCalls st <= randomCalls (snd (makeProcess draws name st))
   /\ randomCalls (snd (makeProcess draws name st)) <= 6 + randomCalls st)%nat.
Proof.
  unfold makeProcess, randomStatus, getRandomProcessState, bind.
  cbn [Math_random fst snd randomCalls metrics].
  destruct (Num.gt (draws (S (S (S (randomCalls st))))) 0.8);
    cbn [Math_random ret fst snd randomCalls metrics]; lia.
Qed.

Lemma mapRun_makeProcess_calls (names : list string) (st : State) :
  (5 * List.length names + randomCalls st
   <= randomCalls (snd (mapRun (makeProcess draws) names st))
   /\ randomCalls (snd (mapRun (makeProcess draws) names st))
      <= 6 * List.length names + randomCalls st)%nat.
Proof.
  revert st. induction names as [|name names IH]; intro st.
  - cbn. lia.
  - cbn [mapRun]. unfold bind. cbn [ret fst snd].
    pose proof (makeProcess_calls name st).
    pose proof (IH (snd (makeProcess draws name st))).
    cbn [List.length]. lia.
Qed.

Lemma mapRun_makeProcess_names (names : list string) (st : State) :
  map Process.name (fst (mapRun (makeProcess draws) names st)) = names.
Proof.
  revert st. induction names as [|name names IH]; intro st.
  - reflexivity.
  - cbn [mapRun]. unfold bind. cbn [ret fst snd map].
    rewrite IH. f_equal; apply (makeProcess_fields name st).
Qed.

(** [updateMetrics()] as six draws followed by [generateProcesses()]. *)
Lemma updateMetrics_split (st : State) :
  exists st',
    randomCalls st' = (6 + randomCalls st)%nat
    /\ tableAfterTick cfg draws st = fst (generateProcesses cfg draws st')
    /\ randomCalls (snd (updateMetrics cfg draws st))
       = randomCalls (snd (mapRun (makeProcess draws)
                                  (Config.PROCESS_NAMES cfg) st')).
Proof.
  unfold tableAfterTick, updateMetrics, generateProcesses, bind.
  cbn [modifyMetrics readMetrics Math_random ret fst snd metrics randomCalls].
  eexists. split; [|split; reflexivity]. reflexivity.
Qed.

(** The table is the head of the sorted array of generated processes;
    what [slice] cuts off is ordered after it. *)
Lemma generateProcesses_top (st : State) :
  let generated :=
    fst (mapRun (makeProcess draws) (Config.PROCESS_NAMES cfg) st) in
  let table := fst (generateProcesses cfg draws st) in
  exists rest,
    Permutation generated (table ++ rest)
    /\ (List.length rest
        = List.length (Config.PROCESS_NAMES cfg)
          - Config.MAX_PROCESSES_DISPLAY (Config.MONITORING cfg))%nat
    /\ forall x y, In x table -> In y rest -> Process.cpu y <= Process.cpu x.
Proof.
  intros generated table.
  set (k := Config.MAX_PROCESSES_DISPLAY (Config.MONITORING cfg)).
  set (sorted := Arr.sort byCpuDescending generated).
  assert (Ht : table = firstn k sorted) by reflexivity.
  exists (skipn k sorted). rewrite Ht, firstn_skipn. split; [|split].
  - apply ArrFacts.sort_perm.
  - rewrite length_skipn. unfold sorted, generated.
    rewrite ArrFacts.sort_length, mapRun_length. reflexivity.
  - apply (sorted_app_order cpuDescending).
    rewrite firstn_skipn. apply sort_sorted.
Qed.

(** The processes that [map] builds depend on the state through the
    number of draws taken so far only. *)
Lemma makeProcess_counter (name : string) (st1 st2 : State) :
  randomCalls st1 = randomCalls st2 ->
  fst (makeProcess draws name st1) = fst (makeProcess draws name st2)
  /\ randomCalls (snd (makeProcess draws name st1))
     = randomCalls (snd (makeProcess draws name st2)).
Proof.
  intro H. unfold makeProcess, randomStatus, getRandomProcessState, bind.
  cbn [Math_random fst snd randomCalls metrics]. rewrite H.
  destruct (Num.gt (draws (S (S (S (randomCalls st2))))) 0.8);
    cbn [Math_random ret fst snd randomCalls metrics]; rewrite ?H;
    split; reflexivity.
Qed.

Lemma mapRun_makeProcess_counter (names : list string) (st1 st2 : State) :
  randomCalls st1 = randomCalls st2 ->
  fst (mapRun (makeProcess draws) names st1)
  = fst (mapRun (makeProcess draws) names st2).
Proof.
  revert st1 st2. induction names as [|name names IH]; intros st1 st2 H.
  - reflexivity.
  - cbn [mapRun]. unfold bind. cbn [ret fst snd].
    destruct (makeProcess_counter name st1 st2 H) as [-> Hc].
    f_equal. apply IH, Hc.
Qed.

(** The table after a tick is the head of the sorted array of the
    processes generated in that tick. *)
Lemma tableAfterTick_top (st : State) :
  exists rest,
    Permutation (generatedInTick cfg draws st)
                (tableAfterTick cfg draws st ++ rest)
    /\ (List.length rest
        = List.length (Config.PROCESS_NAMES cfg)
          - Config.MAX_PROCESSES_DISPLAY (Config.MONITORING cfg))%nat
    /\ (forall x y,
          In x (tableAfterTick cfg draws st) -> In y rest ->
          Process.cpu y <= Process.cpu x).
Proof.
  destruct (updateMetrics_processes cfg draws st) as (st' & Hc & ->).
  unfold generatedInTick.
  rewrite (mapRun_makeProcess_counter (Config.PROCESS_NAMES cfg) _ st')
    by (symmetry; exact Hc).
  apply generateProcesses_top.
Qed.

Lemma tableAfterTick_pid_range (st : State) (proc : Process.t) :
  unit_draws draws ->
  In proc (tableAfterTick cfg draws st) ->
  (1000 <= Process.pid proc <= 9999)%Z.
Proof.
  intros Hd Hin.
  destruct (updateMetrics_processes cfg draws st) as (st' & _ & Ht).
  rewrite Ht in Hin. apply generateProcesses_incl in Hin.
  pose proof (mapRun_Forall
                (fun p => (1000 <= Process.pid p <= 9999)%Z)
                (makeProcess draws) (Config.PROCESS_NAMES cfg)
                (fun name st0 => makeProcess_pid_range draws name st0 Hd)
                st') as Hall.
  rewrite Forall_forall in Hall. exact (Hall proc Hin).
Qed.

End Ticks.

(** X1: the fields that [updateMetrics()] never assigns keep their initial
    values through any number of ticks: [cores], [frequency] and [total]
    stay the configured values and [disk.usage] stays 45. *)
Theorem ticks_keep_fixed_fields (cfg : Config.t) (draws : nat -> Q) (N : nat) :
  let m := metrics (ticks cfg draws N (start cfg)) in
  Cpu.cores (Metrics.cpu m) = Config.CPU_CORES (Config.SYSTEM cfg)
  /\ Cpu.frequency (Metrics.cpu m) = Config.CPU_FREQUENCY (Config.SYSTEM cfg)
  /\ Memory.total (Metrics.memory m) = Config.TOTAL_MEMORY (Config.SYSTEM cfg)
  /\ Disk.usage (Metrics.disk m) = 45.
Proof.
  pose proof (ticks_fixedFields cfg draws N) as H.
  unfold fixedFields in H.
  cbn [constructor Metrics.cpu Metrics.memory Metrics.disk
       Cpu.cores Cpu.frequency Memory.total Disk.usage] in H.
  injection H as H1 H2 H3 H4. cbv zeta. auto.
Qed.

(** X2: after a call of [updateMetrics()] with draws in [[0, 1)], the
    resampled rates are in range: [disk.read] in [[0, 150)], [disk.write]
    in [[0, 100)], [network.sent] in [[0, 500)] and [network.received] in
    [[0, 800)], whatever they were before. *)
Theorem tick_rates_in_range (cfg : Config.t) (draws : nat -> Q) (st : State) :
  unit_draws draws ->
  let m' := metrics (snd (updateMetrics cfg draws st)) in
  (0 <= Disk.read (Metrics.disk m') /\ Disk.read (Metrics.disk m') < 150)
  /\ (0 <= Disk.write (Metrics.disk m') /\ Disk.write (Metrics.disk m') < 100)
  /\ (0 <= Network.sent (Metrics.network m')
      /\ Network.sent (Metrics.network m') < 500)
  /\ (0 <= Network.received (Metrics.network m')
      /\ Network.received (Metrics.network m') < 800).
Proof.
  intros Hd m'. subst m'.
  destruct (updateMetrics_rates cfg draws st) as (-> & -> & -> & ->).
  repeat split;
    match goal with
    | |- context [draws ?i] => destruct (Hd i); nra
    end.
Qed.

Lemma tick_rates_in_range_witness :
  Disk.read (Metrics.disk
     (metrics (snd (updateMetrics CONFIG halfDraws (start CONFIG))))) < 150
  /\ Network.received (Metrics.network
       (metrics (snd (updateMetrics CONFIG halfDraws (start CONFIG))))) < 800.
Proof.
  pose proof (tick_rates_in_range CONFIG halfDraws (start CONFIG) halfDraws_unit)
    as (Hr & _ & _ & Hn).
  split; [apply Hr | apply Hn].
Defined.

(** X3: between two consecutive ticks of the constructed monitor, with
    draws in [[0, 1)], [cpu.usage] moves by at most 5 and [memory.used] by
    at most 0.25: the clamp never adds to the random step. *)
Theorem tick_changes_gradually (cfg : Config.t) (draws : nat -> Q) (N : nat) :
  unit_draws draws ->
  let m := metrics (ticks cfg draws N (start cfg)) in
  let m' := metrics (ticks cfg draws (S N) (start cfg)) in
  (Cpu.usage (Metrics.cpu m) - 5 <= Cpu.usage (Metrics.cpu m')
   /\ Cpu.usage (Metrics.cpu m') <= Cpu.usage (Metrics.cpu m) + 5)
  /\ (Memory.used (Metrics.memory m) - 0.25 <= Memory.used (Metrics.memory m')
      /\ Memory.used (Metrics.memory m')
         <= Memory.used (Metrics.memory m) + 0.25).
Proof.
  intros Hd m m'. subst m m'. rewrite ticks_succ_r.
  set (st := ticks cfg draws N (start cfg)).
  assert (Hb : bounded (metrics st))
    by (apply ticks_bounded, constructor_bounded).
  destruct Hb as ((Hu1 & Hu2) & (Hm1 & Hm2) & _).
  destruct (updateMetrics_memory cfg draws st) as (-> & _ & _).
  rewrite updateMetrics_cpu.
  destruct (Hd (randomCalls st)) as [Ha1 Ha2].
  destruct (Hd (S (randomCalls st))) as [Hb1 Hb2].
  split; apply clamp_step; try assumption; lra.
Qed.

Lemma tick_changes_gradually_witness :
  Cpu.usage (Metrics.cpu (metrics (ticks CONFIG halfDraws 4 (start CONFIG))))
  <= Cpu.usage (Metrics.cpu (metrics (ticks CONFIG halfDraws 3 (start CONFIG))))
     + 5.
Proof.
  exact (proj2 (proj1 (tick_changes_gradually CONFIG halfDraws 3 halfDraws_unit))).
Defined.

(** X4: with draws in [[0, 1)], every entry of the table after a tick has
    a name of the configured catalog, [cpu] in [[0, 25)], [memory] in
    [[0, 1024)] and a defined [state] (the lookup [states[i]] never leaves
    the array). *)
Theorem table_entries_in_range
  (cfg : Config.t) (draws : nat -> Q) (st : State) (proc : Process.t) :
  unit_draws draws ->
  In proc (tableAfterTick cfg draws st) ->
  In (Process.name proc) (Config.PROCESS_NAMES cfg)
  /\ (0 <= Process.cpu proc /\ Process.cpu proc < 25)
  /\ (0 <= Process.memory proc /\ Process.memory proc < 1024)
  /\ (exists s, Process.state proc = Some s).
Proof.
  intros Hd Hin.
  destruct (updateMetrics_processes cfg draws st) as (st' & _ & Ht).
  rewrite Ht in Hin. apply generateProcesses_incl in Hin.
  assert (Hname : In (Process.name proc) (Config.PROCESS_NAMES cfg)).
  { rewrite <- (mapRun_makeProcess_names draws (Config.PROCESS_NAMES cfg) st').
    apply in_map, Hin. }
  split; [exact Hname|].
  assert (Hone : forall name st0,
             (fun p => (0 <= Process.cpu p /\ Process.cpu p < 25)
                       /\ (0 <= Process.memory p /\ Process.memory p < 1024)
                       /\ (exists s, Process.state p = Some s))
               (fst (makeProcess draws name st0))).
  { intros name st0.
    destruct (makeProcess_fields draws name st0) as (_ & _ & -> & -> & j & ->).
    destruct (Hd (1 + randomCalls st0)%nat), (Hd (2 + randomCalls st0)%nat),
      (Hd j).
    repeat split; try nra. apply state_defined; assumption. }
  pose proof (mapRun_Forall _ (makeProcess draws) (Config.PROCESS_NAMES cfg)
                Hone st') as Hall.
  rewrite Forall_forall in Hall. exact (Hall proc Hin).
Qed.

Lemma table_entries_in_range_witness :
  exists proc,
    nth_error (tableAfterTick CONFIG halfDraws (start CONFIG)) 0 = Some proc
    /\ Process.cpu proc < 25
    /\ exists s, Process.state proc = Some s.
Proof.
  destruct (nth_error (tableAfterTick CONFIG halfDraws (start CONFIG)) 0)
    as [proc|] eqn:E; [|vm_compute in E; discriminate E].
  exists proc. split; [reflexivity|].
  pose proof (table_entries_in_range CONFIG halfDraws (start CONFIG) proc
                halfDraws_unit (nth_error_In _ _ E)) as (_ & (_ & Hc) & _ & Hs).
  split; assumption.
Defined.

(** X5: the table after a tick holds the top processes of that tick.
    The processes generated in the tick are the array that [map] builds,
    one per catalog name in catalog order; the table and the entries cut
    off by [slice] together are a rearrangement of these generated
    processes, with as many cut off as the names exceed
    [MAX_PROCESSES_DISPLAY]; no entry cut off has more [cpu] than an entry
    of the table; so every generated process is in the table or has no
    more [cpu] than any entry of it. *)
Theorem table_holds_top_processes
  (cfg : Config.t) (draws : nat -> Q) (st : State) :
  let generated := generatedInTick cfg draws st in
  let table := tableAfterTick cfg draws st in
  map Process.name generated = Config.PROCESS_NAMES cfg
  /\ (exists rest,
        Permutation generated (table ++ rest)
        /\ (List.length rest
            = List.length (Config.PROCESS_NAMES cfg)
              - Config.MAX_PROCESSES_DISPLAY (Config.MONITORING cfg))%nat
        /\ (forall x y, In x table -> In y rest ->
                        Process.cpu y <= Process.cpu x))
  /\ (forall y, In y generated ->
        In y table
        \/ (forall x, In x table -> Process.cpu y <= Process.cpu x)).
Proof.
  intros generated table.
  destruct (tableAfterTick_top cfg draws st) as (rest & Hp & Hl & Ho).
  split; [apply mapRun_makeProcess_names|]. split.
  - exists rest. auto.
  - intros y Hy. apply (Permutation_in _ Hp) in Hy.
    apply in_app_or in Hy. destruct Hy as [Hy|Hy]; [left; exact Hy|].
    right. intros x Hx. exact (Ho x y Hx Hy).
Qed.

(** X6: when [MAX_PROCESSES_DISPLAY] is at least the number of catalog
    names nothing is cut off: the names in the table after a tick are a
    rearrangement of the catalog. *)
Theorem table_names_without_truncation
  (cfg : Config.t) (draws : nat -> Q) (st : State) :
  (List.length (Config.PROCESS_NAMES cfg)
   <= Config.MAX_PROCESSES_DISPLAY (Config.MONITORING cfg))%nat ->
  Permutation (map Process.name (tableAfterTick cfg draws st))
              (Config.PROCESS_NAMES cfg).
Proof.
  intro Hk.
  destruct (updateMetrics_processes cfg draws st) as (st' & _ & ->).
  destruct (generateProcesses_top cfg draws st') as (rest & Hp & Hl & _).
  assert (rest = []) by (apply length_zero_iff_nil; lia). subst rest.
  rewrite app_nil_r in Hp.
  rewrite <- (mapRun_makeProcess_names draws (Config.PROCESS_NAMES cfg) st').
  apply Permutation_map, Permutation_sym, Hp.
Qed.

Lemma table_names_without_truncation_witness :
  Permutation
    (map Process.name (tableAfterTick wideConfig halfDraws (start wideConfig)))
    (Config.PROCESS_NAMES wideConfig).
Proof.
  apply (table_names_without_truncation wideConfig halfDraws (start wideConfig)).
  cbn. lia.
Defined.

(** X7: when the catalog has no repeated name, no name occurs twice in the
    table after a tick (pids may repeat, names do not). *)
Theorem table_names_distinct
  (cfg : Config.t) (draws : nat -> Q) (st : State) :
  NoDup (Config.PROCESS_NAMES cfg) ->
  NoDup (map Process.name (tableAfterTick cfg draws st)).
Proof.
  intro Hn.
  destruct (updateMetrics_processes cfg draws st) as (st' & _ & ->).
  destruct (generateProcesses_top cfg draws st') as (rest & Hp & _ & _).
  apply (Permutation_map Process.name) in Hp.
  rewrite mapRun_makeProcess_names, map_app in Hp.
  apply (Permutation_NoDup Hp) in Hn.
  apply NoDup_app_remove_r in Hn. exact Hn.
Qed.

Lemma table_names_distinct_witness :
  NoDup (map Process.name (tableAfterTick CONFIG halfDraws (start CONFIG))).
Proof.
  apply (table_names_distinct CONFIG halfDraws (start CONFIG)).
  apply PROCESS_NAMES_distinct.
Defined.

(** X8: one call of [updateMetrics()] makes between [6 + 5 n] and
    [6 + 6 n] calls of [Math.random()], for [n] catalog names: six for the
    scalar metrics and five or six per process. *)
Theorem tick_draw_count (cfg : Config.t) (draws : nat -> Q) (st : State) :
  let n := List.length (Config.PROCESS_NAMES cfg) in
  let after := randomCalls (snd (updateMetrics cfg draws st)) in
  (randomCalls st + 6 + 5 * n <= after
   /\ after <= randomCalls st + 6 + 6 * n)%nat.
Proof.
  intros n after. subst n after.
  destruct (updateMetrics_split cfg draws st) as (st' & Hc & _ & ->).
  pose proof (mapRun_makeProcess_calls draws (Config.PROCESS_NAMES cfg) st').
  lia.
Qed.

(** X9: after any number of ticks of the constructed monitor,
    [getContextSwitches()] returns an integer between 500 and 9500, and it
    does not change the state. *)
Theorem contextSwitches_in_range (cfg : Config.t) (draws : nat -> Q) (N : nat) :
  let st := ticks cfg draws N (start cfg) in
  (500 <= fst (getContextSwitches st) <= 9500)%Z
  /\ snd (getContextSwitches st) = st.
Proof.
  intro st. split; [|reflexivity].
  assert (Hb : bounded (metrics st))
    by (apply ticks_bounded, constructor_bounded).
  destruct Hb as ((Hu1 & Hu2) & _).
  unfold getContextSwitches, bind, Num.Math_floor. cbn [readMetrics ret fst snd].
  split.
  - change 500%Z with (Qfloor (inject_Z 500)). apply Qfloor_resp_le.
    change (inject_Z 500) with 500. lra.
  - change 9500%Z with (Qfloor (inject_Z 9500)). apply Qfloor_resp_le.
    change (inject_Z 9500) with 9500. lra.
Qed.

(** X10: after a tick with draws in [[0, 1)], [getProcessByPID(pid)]
    returns nothing for every [pid] below 1000 or above 9999. *)
Theorem lookup_outside_pid_range_misses
  (cfg : Config.t) (draws : nat -> Q) (st : State) (pid : Z) :
  unit_draws draws ->
  (pid < 1000 \/ 9999 < pid)%Z ->
  fst (getProcessByPID pid (snd (updateMetrics cfg draws st))) = None.
Proof.
  intros Hd Hpid. unfold getProcessByPID, bind. cbn [readMetrics ret fst snd].
  fold (tableAfterTick cfg draws st).
  apply ArrFacts.find_absent. intros proc Hin. apply Z.eqb_neq.
  pose proof (tableAfterTick_pid_range cfg draws st proc Hd Hin). lia.
Qed.

Lemma lookup_outside_pid_range_misses_witness :
  fst (getProcessByPID 999
         (snd (updateMetrics CONFIG halfDraws (start CONFIG)))) = None.
Proof.
  apply (lookup_outside_pid_range_misses CONFIG halfDraws (start CONFIG) 999
           halfDraws_unit).
  left. reflexivity.
Defined.

(** X11: with the shipped configuration, in every state the constructed
    monitor reaches, [checkAlerts()] raises the cpu alert exactly when
    [cpu.usage > 85] and the memory alert exactly when
    [memory.used > 13.6] (85 percent of the 16 GB total). *)
Theorem shipped_alert_conditions (draws : nat -> Q) (N : nat) :
  let st := ticks CONFIG draws N (start CONFIG) in
  let m := metrics st in
  fst (checkAlerts CONFIG st)
  = (if Num.gt (Cpu.usage (Metrics.cpu m)) 85 then [cpuAlert] else [])
    ++ (if Num.gt (Memory.used (Metrics.memory m)) 13.6
        then [memoryAlert] else []).
Proof.
  intros st m.
  pose proof (ticks_fixedFields CONFIG draws N) as Hf.
  unfold fixedFields in Hf. fold st in Hf. fold m in Hf.
  injection Hf as _ _ Ht _.
  unfold checkAlerts, bind. cbn [readMetrics ret fst snd]. fold m.
  change (Config.ALERT_THRESHOLD_CPU (Config.MONITORING CONFIG)) with 85.
  change (Config.ALERT_THRESHOLD_MEMORY (Config.MONITORING CONFIG)) with 85.
  rewrite Ht. change (Config.TOTAL_MEMORY (Config.SYSTEM CONFIG)) with 16.
  assert (Hm : Num.ext_gt
                 (Num.ext_mul (Num.div (Memory.used (Metrics.memory m)) 16) 100)
                 85
               = Num.gt (Memory.used (Metrics.memory m)) 13.6).
  { unfold Num.div. change (Qeq_bool 16 0) with false.
    cbn [Num.ext_mul Num.ext_gt].
    destruct (Num.gt (Memory.used (Metrics.memory m)) 13.6) eqn:E.
    - apply NumFacts.gt_true in E. apply NumFacts.gt_true.
      unfold Qdiv. change (/ 16) with (1 # 16). lra.
    - apply NumFacts.gt_false in E. apply NumFacts.gt_false.
      unfold Qdiv. change (/ 16) with (1 # 16). lra. }
  rewrite Hm.
  destruct (Num.gt _ 85), (Num.gt _ 13.6); reflexivity.
Qed.

(* ===================================================================== *)
(** ** Substrings *)
(* ===================================================================== *)

Module StrFacts.

Import Str.
Local Open Scope string_scope.

Lemma prefix_refl (s : string) : prefix s s = true.
Proof.
  induction s as [|c s IH]; cbn; [reflexivity|].
  destruct (ascii_dec c c) as [_|Hn]; [exact IH | destruct Hn; reflexivity].
Qed.

Lemma prefix_app (p s t : string) :
  prefix p s = true -> prefix p (s ++ t) = true.
Proof.
  revert s. induction p as [|c p IH]; intros s H;
    [destruct (s ++ t); reflexivity|].
  destruct s as [|d s]; cbn in *; [discriminate|].
  destruct (ascii_dec c d); [apply IH, H | discriminate].
Qed.

Lemma prefix_app_same (a b c : string) :
  prefix b c = true -> prefix (a ++ b) (a ++ c) = true.
Proof.
  intro H. induction a as [|x a IH]; cbn; [exact H|].
  destruct (ascii_dec x x) as [_|Hn]; [exact IH | destruct Hn; reflexivity].
Qed.

Lemma prefix_trans (a b s : string) :
  prefix a b = true -> prefix b s = true -> prefix a s = true.
Proof.
  revert b s. induction a as [|x a IH]; intros b s Hab Hbs;
    [destruct s; reflexivity|].
  destruct b as [|y b]; cbn in Hab; [discriminate|].
  destruct (ascii_dec x y) as [->|]; [|discriminate].
  destruct s as [|z s]; cbn in Hbs; [discriminate|].
  cbn. destruct (ascii_dec y z); [|discriminate]. exact (IH b s Hab Hbs).
Qed.

Lemma includes_prefix (s sub : string) :
  prefix sub s = true -> includes s sub = true.
Proof.
  intro H. destruct s; cbn [includes]; rewrite H; reflexivity.
Qed.

Lemma includes_cons (c : ascii) (s sub : string) :
  includes s sub = true -> includes (String c s) sub = true.
Proof.
  intro H. cbn [includes].
  destruct (prefix sub (String c s)); [reflexivity | exact H].
Qed.

Lemma includes_app_r (s t sub : string) :
  includes t sub = true -> includes (s ++ t) sub = true.
Proof.
  intro H. induction s as [|c s IH]; [exact H|].
  cbn [append]. apply includes_cons, IH.
Qed.

Lemma includes_app_l (s t sub : string) :
  includes s sub = true -> includes (s ++ t) sub = true.
Proof.
  induction s as [|c s IH]; cbn [includes append]; intro H.
  - destruct (prefix sub EmptyString) eqn:E; [|discriminate].
    destruct sub; [|discriminate]. destruct t; reflexivity.
  - destruct (prefix sub (String c s)) eqn:E.
    + change (String c (s ++ t)) with (String c s ++ t).
      rewrite (prefix_app _ _ t E). reflexivity.
    + destruct (prefix sub (String c (s ++ t))); [reflexivity | apply IH, H].
Qed.

Lemma includes_here (s t : string) : includes (s ++ t) s = true.
Proof. apply includes_prefix, prefix_app, prefix_refl. Qed.

(** A string that contains [b] contains every prefix of [b]. *)
Lemma includes_shorter (s a b : string) :
  prefix a b = true -> includes s b = true -> includes s a = true.
Proof.
  intro Hab. induction s as [|c s IH]; cbn [includes]; intro H.
  - destruct (prefix b EmptyString) eqn:E; [|discriminate].
    rewrite (prefix_trans a b _ Hab E). reflexivity.
  - destruct (prefix b (String c s)) eqn:E.
    + rewrite (prefix_trans a b _ Hab E). reflexivity.
    + destruct (prefix a (String c s)); [reflexivity | apply IH, H].
Qed.

Lemma append_assoc (a b c : string) : (a ++ b) ++ c = a ++ (b ++ c).
Proof.
  induction a as [|x a IH]; cbn; [reflexivity | rewrite IH; reflexivity].
Qed.

Lemma append_nil_r (a : string) : a ++ EmptyString = a.
Proof.
  induction a as [|x a IH]; cbn; [reflexivity | rewrite IH; reflexivity].
Qed.

End StrFacts.

(** Finds a piece [dyn ++ lit], or a whole operand, of a text built by
    appending. *)
Ltac find_piece :=
  lazymatch goal with
  | |- Str.includes (?d ++ _)%string (?d ++ _)%string = true =>
      first [ solve [ apply StrFacts.includes_prefix;
                      apply StrFacts.prefix_app_same; reflexivity ]
            | apply StrFacts.includes_app_r; find_piece ]
  | |- Str.includes (?s ++ _)%string ?s = true => apply StrFacts.includes_here
  | |- Str.includes (_ ++ _)%string _ = true =>
      apply StrFacts.includes_app_r; find_piece
  end.

(* ===================================================================== *)
(** ** Further properties of the response engine *)
(* ===================================================================== *)

Module ChatMore.

Import Chat ChatSpec.
Local Open Scope string_scope.

Lemma generateResponse_unfold (st : State) (msg : string) :
  generateResponse st msg
  = cpuQueries st (Str.toLowerCase msg) ?>
    memoryQueries st (Str.toLowerCase msg) ?>
    processQueries st (Str.toLowerCase msg) ?>
    afterProcessQueries st (Str.toLowerCase msg).
Proof. reflexivity. Qed.

Lemma afterProcessQueries_choice (st : State) (l : string) :
  afterProcessQueries st l
  = if diskKeyword l then diskResponse st
    else if networkKeyword l then networkResponse st
    else if optimizationKeyword l then optimizationResponse st
    else if schedulingKeyword l then schedulingResponse
    else if deadlockKeyword l then deadlockResponse
    else if fileSystemKeyword l then fileSystemResponse
    else defaultResponse.
Proof.
  unfold afterProcessQueries, diskQueries, networkQueries, optimizationQueries,
    schedulingQueries, deadlockQueries, fileSystemQueries.
  destruct (diskKeyword l), (networkKeyword l), (optimizationKeyword l),
    (schedulingKeyword l), (deadlockKeyword l), (fileSystemKeyword l);
    reflexivity.
Qed.

Lemma forEachProcess_lines (procs : list Process.t) :
  forall i response,
    forEachProcess i procs response = response ++ processLines i procs.
Proof.
  induction procs as [|p procs IH]; intros i response; cbn.
  - symmetry. apply StrFacts.append_nil_r.
  - rewrite IH. apply StrFacts.append_assoc.
Qed.

Lemma topProcessesResponse_lines (st : State) :
  topProcessesResponse st
  = (topProcessesHeader
     ++ processLines 0 (firstn 5 (Metrics.processes (metrics st))))
    ++ topProcessesFooter.
Proof.
  unfold topProcessesResponse. rewrite forEachProcess_lines. reflexivity.
Qed.

Lemma processLines_includes_name (procs : list Process.t) (proc : Process.t) :
  In proc procs ->
  forall i,
    Str.includes (processLines i procs)
                 (Process.name proc ++ "</strong><br>") = true.
Proof.
  induction procs as [|p procs IH]; intros Hin i; [destruct Hin|].
  cbn [processLines]. destruct Hin as [->|Hin].
  - apply StrFacts.includes_app_l. unfold processLine. find_piece.
  - apply StrFacts.includes_app_r, IH, Hin.
Qed.

Lemma cpuStatusResponse_pieces (st : State) :
  let usage := Cpu.usage (Metrics.cpu (metrics st)) in
  let response := cpuStatusResponse st in
  Str.includes response (Str.toFixed 1 usage ++ "%") = true
  /\ Str.includes response
       (Str.Number_toString (Cpu.cores (Metrics.cpu (metrics st)))
        ++ " logical processors") = true
  /\ Str.includes response
       (Str.Number_toString (Cpu.frequency (Metrics.cpu (metrics st)))
        ++ " GHz") = true
  /\ Str.includes response
       (Str.intToString (Num.Math_floor (usage * 100)) ++ " times per second")
     = true
  /\ Str.includes response
       (if Num.gt usage 70 then "⚠️ CPU usage is high. "
        else "✅ CPU usage is normal. ") = true.
Proof.
  intros usage response. subst usage response. unfold cpuStatusResponse.
  unfold getMetrics, getContextSwitches, bind. cbn [readMetrics ret fst snd].
  repeat split; find_piece.
Qed.

Lemma startsWithEmoji_app (s t : string) :
  startsWithEmoji s -> startsWithEmoji (s ++ t).
Proof. intros [rest ->]. eexists. cbn [append]. reflexivity. Qed.

Lemma responses_start_with_emoji (st : State) :
  Forall startsWithEmoji
    [ cpuStatusResponse st; cpuTheoryResponse st; memoryStatusResponse st;
      memoryTheoryResponse; topProcessesResponse st; processTheoryResponse st;
      diskResponse st; networkResponse st; optimizationResponse st;
      schedulingResponse; deadlockResponse; fileSystemResponse ].
Proof.
  repeat constructor;
    try (eexists; unfold cpuStatusResponse, cpuTheoryResponse,
           memoryStatusResponse, memoryTheoryResponse, processTheoryResponse,
           diskResponse, networkResponse, schedulingResponse, deadlockResponse,
           fileSystemResponse; cbn [append]; reflexivity).
  - rewrite topProcessesResponse_lines.
    do 2 apply startsWithEmoji_app. eexists. reflexivity.
  - unfold optimizationResponse.
    destruct (Num.gt _ 70); destruct (Num.ext_gt _ _);
      eexists; cbn [append]; reflexivity.
Qed.

Lemma defaultResponse_not_emoji : ~ startsWithEmoji defaultResponse.
Proof. intros [rest H]. discriminate H. Qed.

Lemma block_response_emoji (st : State) (l r : string) :
  cpuQueries st l = Some r \/ memoryQueries st l = Some r
  \/ processQueries st l = Some r ->
  startsWithEmoji r.
Proof.
  pose proof (responses_start_with_emoji st) as H.
  rewrite Forall_forall in H.
  unfold cpuQueries, memoryQueries, processQueries.
  intros [Hr|[Hr|Hr]];
    repeat match type of Hr with
           | context [if ?b then _ else _] => destruct b
           end;
    try discriminate; injection Hr as <-; apply H; cbn [In]; tauto.
Qed.

End ChatMore.

(** X12: the three categories with secondary keywords answer in the order
    CPU, memory, process: a message with a CPU keyword and "usage" or
    "current" gets the CPU status text whatever else it mentions, and with
    "explain" or "what is" instead the CPU theory text; the memory block
    answers only when the CPU block returned nothing, and the process
    block only when both returned nothing, each with its status text
    before its theory text. *)
Theorem two_level_categories_by_priority (st : State) (userMessage : string) :
  let l := Str.toLowerCase userMessage in
  (Chat.cpuKeyword l = true -> Chat.cpuStatusKeyword l = true ->
   Chat.generateResponse st userMessage = Chat.cpuStatusResponse st)
  /\ (Chat.cpuKeyword l = true -> Chat.cpuStatusKeyword l = false ->
      Chat.cpuTheoryKeyword l = true ->
      Chat.generateResponse st userMessage = Chat.cpuTheoryResponse st)
  /\ (Chat.cpuQueries st l = None -> Chat.memoryKeyword l = true ->
      Chat.memoryStatusKeyword l = true ->
      Chat.generateResponse st userMessage = Chat.memoryStatusResponse st)
  /\ (Chat.cpuQueries st l = None -> Chat.memoryKeyword l = true ->
      Chat.memoryStatusKeyword l = false -> Chat.memoryTheoryKeyword l = true ->
      Chat.generateResponse st userMessage = Chat.memoryTheoryResponse)
  /\ (Chat.cpuQueries st l = None -> Chat.memoryQueries st l = None ->
      Chat.processKeyword l = true -> Chat.processTopKeyword l = true ->
      Chat.generateResponse st userMessage = Chat.topProcessesResponse st)
  /\ (Chat.cpuQueries st l = None -> Chat.memoryQueries st l = None ->
      Chat.processKeyword l = true -> Chat.processTopKeyword l = false ->
      Chat.processTheoryKeyword l = true ->
      Chat.generateResponse st userMessage = Chat.processTheoryResponse st).
Proof.
  intro l. rewrite ChatMore.generateResponse_unfold. fold l.
  repeat match goal with |- _ /\ _ => split end; intros;
    unfold Chat.cpuQueries, Chat.memoryQueries, Chat.processQueries in *;
    repeat match goal with H : _ = true |- _ => rewrite H in *; clear H end;
    repeat match goal with H : _ = false |- _ => rewrite H in *; clear H end;
    repeat match goal with H : _ = None |- _ => rewrite H; clear H end;
    reflexivity.
Qed.

(** X13: a message with a memory keyword ("memory", or "ram" anywhere, as
    in "program") but none of "usage", "current", "show", "virtual",
    "explain" is not answered by the memory block: when the CPU block
    returned nothing, the response is what the statements after the memory
    block produce. *)
Theorem memory_without_secondary_falls_through
  (st : State) (userMessage : string) :
  let l := Str.toLowerCase userMessage in
  Chat.cpuQueries st l = None ->
  Chat.memoryKeyword l = true ->
  Chat.memoryStatusKeyword l = false ->
  Chat.memoryTheoryKeyword l = false ->
  Chat.generateResponse st userMessage = ChatSpec.afterMemoryQueries st l.
Proof.
  intros l Hc _ Hs Ht. rewrite ChatMore.generateResponse_unfold. fold l.
  rewrite Hc. unfold Chat.memoryQueries. rewrite Hs, Ht.
  destruct (Chat.memoryKeyword l); reflexivity.
Qed.

Lemma memory_without_secondary_falls_through_witness :
  Chat.generateResponse (start CONFIG) "My program crashed"
  = Chat.defaultResponse.
Proof.
  rewrite (memory_without_secondary_falls_through
             (start CONFIG) "My program crashed"
             eq_refl eq_refl eq_refl eq_refl).
  reflexivity.
Defined.

(** X14: a message with a process keyword ("process", "application", or
    "top" anywhere, as in "laptop") but none of "using", "consuming",
    "most", "explain", "what is" is not answered by the process block:
    when the CPU and memory blocks returned nothing, the response is what
    the statements after the process block produce. *)
Theorem process_without_secondary_falls_through
  (st : State) (userMessage : string) :
  let l := Str.toLowerCase userMessage in
  Chat.cpuQueries st l = None ->
  Chat.memoryQueries st l = None ->
  Chat.processKeyword l = true ->
  Chat.processTopKeyword l = false ->
  Chat.processTheoryKeyword l = false ->
  Chat.generateResponse st userMessage = ChatSpec.afterProcessQueries st l.
Proof.
  intros l Hc Hm _ Hs Ht. rewrite ChatMore.generateResponse_unfold. fold l.
  rewrite Hc, Hm. unfold Chat.processQueries. rewrite Hs, Ht.
  destruct (Chat.processKeyword l); reflexivity.
Qed.

Lemma process_without_secondary_falls_through_witness :
  Chat.generateResponse (start CONFIG) "My laptop disk is full"
  = Chat.diskResponse (start CONFIG).
Proof.
  rewrite (process_without_secondary_falls_through
             (start CONFIG) "My laptop disk is full"
             eq_refl eq_refl eq_refl eq_refl eq_refl).
  reflexivity.
Defined.

(** X15: when the CPU, memory and process blocks return nothing, the
    response is that of the first category, in the order disk, network,
    optimization, scheduling, deadlock, file system, that has a keyword in
    the message, and the default text when none has. *)
Theorem single_level_categories_by_priority
  (st : State) (userMessage : string) :
  let l := Str.toLowerCase userMessage in
  Chat.cpuQueries st l = None ->
  Chat.memoryQueries st l = None ->
  Chat.processQueries st l = None ->
  Chat.generateResponse st userMessage
  = if Chat.diskKeyword l then Chat.diskResponse st
    else if Chat.networkKeyword l then Chat.networkResponse st
    else if Chat.optimizationKeyword l then Chat.optimizationResponse st
    else if Chat.schedulingKeyword l then Chat.schedulingResponse
    else if Chat.deadlockKeyword l then Chat.deadlockResponse
    else if Chat.fileSystemKeyword l then Chat.fileSystemResponse
    else Chat.defaultResponse.
Proof.
  intros l Hc Hm Hp. rewrite ChatMore.generateResponse_unfold. fold l.
  rewrite Hc, Hm, Hp. apply ChatMore.afterProcessQueries_choice.
Qed.

Lemma single_level_categories_by_priority_witness :
  Chat.generateResponse (start CONFIG) "Network deadlock on the disk"
  = Chat.diskResponse (start CONFIG).
Proof.
  rewrite (single_level_categories_by_priority
             (start CONFIG) "Network deadlock on the disk"
             eq_refl eq_refl eq_refl).
  reflexivity.
Defined.

(** X16: [generateResponse] returns the default help text exactly when no
    block responds: the CPU, memory and process blocks return nothing and
    no keyword of the six later categories occurs in the lower-cased
    message.  (Every other response text opens with an emoji, the default
    text with a letter.) *)
Theorem default_exactly_when_no_block_responds
  (st : State) (userMessage : string) :
  Chat.generateResponse st userMessage = Chat.defaultResponse
  <-> ChatSpec.noBlockResponds st (Str.toLowerCase userMessage).
Proof.
  rewrite ChatMore.generateResponse_unfold.
  set (l := Str.toLowerCase userMessage). unfold ChatSpec.noBlockResponds.
  pose proof (ChatMore.responses_start_with_emoji st) as He.
  rewrite Forall_forall in He.
  pose proof ChatMore.defaultResponse_not_emoji as Hd.
  split.
  - intro H.
    destruct (Chat.cpuQueries st l) as [r|] eqn:Ec.
    { exfalso. apply Hd. cbn [Chat.orContinue] in H. rewrite <- H.
      apply (ChatMore.block_response_emoji st l r); auto. }
    destruct (Chat.memoryQueries st l) as [r|] eqn:Em.
    { exfalso. apply Hd. cbn [Chat.orContinue] in H. rewrite <- H.
      apply (ChatMore.block_response_emoji st l r); auto. }
    destruct (Chat.processQueries st l) as [r|] eqn:Ep.
    { exfalso. apply Hd. cbn [Chat.orContinue] in H. rewrite <- H.
      apply (ChatMore.block_response_emoji st l r); auto. }
    cbn [Chat.orContinue] in H.
    rewrite ChatMore.afterProcessQueries_choice in H.
    repeat split;
      repeat match type of H with
             | context [if ?b then _ else _] =>
                 destruct b eqn:?;
                 [exfalso; apply Hd; rewrite <- H; apply He; cbn [In]; tauto|]
             end; reflexivity.
  - intros (-> & -> & -> & Hk1 & Hk2 & Hk3 & Hk4 & Hk5 & Hk6).
    cbn [Chat.orContinue]. rewrite ChatMore.afterProcessQueries_choice.
    rewrite Hk1, Hk2, Hk3, Hk4, Hk5, Hk6. reflexivity.
Qed.

(** X17: "processor" is also a process keyword, because it contains
    "process": a message with "processor" and one of "using", "consuming",
    "most", without a CPU secondary keyword and not answered by the memory
    block, gets the list of top processes. *)
Theorem processor_is_a_process_keyword (st : State) (userMessage : string) :
  let l := Str.toLowerCase userMessage in
  Str.includes l "processor" = true ->
  Chat.cpuStatusKeyword l = false ->
  Chat.cpuTheoryKeyword l = false ->
  Chat.memoryQueries st l = None ->
  Chat.processTopKeyword l = true ->
  Chat.processKeyword l = true
  /\ Chat.generateResponse st userMessage = Chat.topProcessesResponse st.
Proof.
  intros l Hp Hs Ht Hm Htop.
  assert (Hk : Chat.processKeyword l = true).
  { unfold Chat.processKeyword.
    rewrite (StrFacts.includes_shorter l "process" "processor" eq_refl Hp).
    reflexivity. }
  split; [exact Hk|].
  rewrite ChatMore.generateResponse_unfold. fold l.
  rewrite (ChatFacts.cpuQueries_falls_through st l Hs Ht), Hm.
  unfold Chat.processQueries. rewrite Hk, Htop. reflexivity.
Qed.

Lemma processor_is_a_process_keyword_witness :
  Chat.generateResponse (start CONFIG) "Which processor is consuming power?"
  = Chat.topProcessesResponse (start CONFIG).
Proof.
  exact (proj2 (processor_is_a_process_keyword
                  (start CONFIG) "Which processor is consuming power?"
                  eq_refl eq_refl eq_refl eq_refl eq_refl)).
Defined.

(** X18: for every state, the response to a message with a CPU keyword and
    "usage" or "current" reports the live values: it contains the usage
    printed with one decimal and a percent sign, the core count followed
    by " logical processors", the frequency followed by " GHz", the
    context-switch estimate [floor(usage * 100)], and the high-usage clause
    when [usage > 70], the normal-usage clause otherwise. *)
Theorem cpu_status_reports_live_values (st : State) (userMessage : string) :
  let l := Str.toLowerCase userMessage in
  Chat.cpuKeyword l = true ->
  Chat.cpuStatusKeyword l = true ->
  let usage := Cpu.usage (Metrics.cpu (metrics st)) in
  let response := Chat.generateResponse st userMessage in
  Str.includes response (Str.toFixed 1 usage ++ "%") = true
  /\ Str.includes response
       (Str.Number_toString (Cpu.cores (Metrics.cpu (metrics st)))
        ++ " logical processors") = true
  /\ Str.includes response
       (Str.Number_toString (Cpu.frequency (Metrics.cpu (metrics st)))
        ++ " GHz") = true
  /\ Str.includes response
       (Str.intToString (Num.Math_floor (usage * 100)) ++ " times per second")
     = true
  /\ Str.includes response
       (if Num.gt usage 70 then "⚠️ CPU usage is high. "
        else "✅ CPU usage is normal. ") = true.
Proof.
  intros l Hk Hs usage response.
  assert (Hr : response = Chat.cpuStatusResponse st).
  { subst response. unfold Chat.generateResponse, Chat.cpuQueries. fold l.
    rewrite Hk, Hs. reflexivity. }
  rewrite Hr. apply ChatMore.cpuStatusResponse_pieces.
Qed.

Lemma cpu_status_reports_live_values_witness :
  Str.includes
    (Chat.generateResponse
       (snd (updateMetrics CONFIG halfDraws (start CONFIG)))
       "Current CPU load?")
    "35.0%" = true.
Proof.
  exact (proj1 (cpu_status_reports_live_values
                  (snd (updateMetrics CONFIG halfDraws (start CONFIG)))
                  "Current CPU load?" eq_refl eq_refl)).
Defined.

(** X19: the list of top processes is the fixed header, one numbered entry
    for each of the first five processes of the table, in table order, and
    the fixed footer; it names each of those processes; with an empty
    table (before the first tick) it is the header followed by the
    footer. *)
Theorem top_processes_lists_first_five (st : State) :
  let procs := Metrics.processes (metrics st) in
  Chat.topProcessesResponse st
  = ((ChatSpec.topProcessesHeader
      ++ ChatSpec.processLines 0 (firstn 5 procs))
     ++ ChatSpec.topProcessesFooter)%string
  /\ (forall proc,
        In proc (firstn 5 procs) ->
        Str.includes (Chat.topProcessesResponse st)
                     (Process.name proc ++ "</strong><br>") = true)
  /\ (procs = [] ->
      Chat.topProcessesResponse st
      = (ChatSpec.topProcessesHeader ++ ChatSpec.topProcessesFooter)%string).
Proof.
  intro procs.
  pose proof (ChatMore.topProcessesResponse_lines st) as He. fold procs in He.
  split; [exact He|]. split.
  - intros proc Hin. rewrite He.
    apply StrFacts.includes_app_l, StrFacts.includes_app_r.
    apply ChatMore.processLines_includes_name, Hin.
  - intro Hp. rewrite He, Hp. reflexivity.
Qed.

(** X20: the optimization response contains the CPU recommendation exactly
    when [cpu.usage > 70], the memory recommendation exactly when
    [memory.used / memory.total > 0.7], and the general recommendation
    always. *)
Theorem optimization_recommendations (st : State) :
  let m := metrics st in
  let response := Chat.optimizationResponse st in
  Str.includes response "<strong>CPU:</strong>"
  = Num.gt (Cpu.usage (Metrics.cpu m)) 70
  /\ Str.includes response "<strong>Memory:</strong>"
     = Num.ext_gt (Num.div (Memory.used (Metrics.memory m))
                           (Memory.total (Metrics.memory m))) 0.7
  /\ Str.includes response "<strong>General:</strong>" = true.
Proof.
  intros m response. subst response. unfold Chat.optimizationResponse.
  unfold getMetrics. cbn [readMetrics fst]. fold m.
  destruct (Num.gt (Cpu.usage (Metrics.cpu m)) 70);
    destruct (Num.ext_gt _ 0.7); vm_compute; repeat split.
Qed.

(* ===================================================================== *)
(** ** Reading back the text of toFixed *)
(* ===================================================================== *)

Module FixedFacts.

Import Str FixedSpec.
Local Open Scope string_scope.

Lemma uint_string_digits (d : Decimal.uint) :
  allDigits (NilEmpty.string_of_uint d).
Proof.
  induction d; cbn; (split; [discriminate | assumption]) || exact I.
Qed.

Lemma uint_string_spelled (d : Decimal.uint) :
  forall acc, spelled (NilEmpty.string_of_uint d) acc = uintValue d acc.
Proof.
  induction d; intro acc; cbn [NilEmpty.string_of_uint spelled uintValue];
    try reflexivity;
    match goal with
    | |- context [digitValue ?c] =>
        let v := eval vm_compute in (digitValue c) in
        change (digitValue c) with v
    end; apply IHd.
Qed.

Lemma of_uint_acc_value (d : Decimal.uint) :
  forall p, Z.pos (Pos.of_uint_acc d p) = uintValue d (Z.pos p).
Proof.
  induction d; intro p; cbn [Pos.of_uint_acc uintValue]; try reflexivity;
    rewrite IHd; f_equal; lia.
Qed.

Lemma of_uint_value (d : Decimal.uint) :
  Z.of_N (Pos.of_uint d) = uintValue d 0.
Proof.
  induction d; cbn [Pos.of_uint uintValue]; try reflexivity;
    try (cbn [Z.of_N]; rewrite of_uint_acc_value; reflexivity).
  exact IHd.
Qed.

Lemma to_uint_nonnil (n : N) : N.to_uint n <> Decimal.Nil.
Proof.
  destruct n; cbn; [discriminate | apply DecimalPos.Unsigned.to_uint_nonnil].
Qed.

Lemma digitsOf_string (n : Z) :
  digitsOf n = NilEmpty.string_of_uint (N.to_uint (Z.to_N n)).
Proof.
  unfold digitsOf, NilZero.string_of_uint.
  pose proof (to_uint_nonnil (Z.to_N n)).
  destruct (N.to_uint (Z.to_N n)); [contradiction | reflexivity ..].
Qed.

Lemma digitsOf_digits (n : Z) : allDigits (digitsOf n).
Proof. rewrite digitsOf_string. apply uint_string_digits. Qed.

Lemma digitsOf_spelled (n : Z) : (0 <= n)%Z -> spelled (digitsOf n) 0 = n.
Proof.
  intro Hn. rewrite digitsOf_string, uint_string_spelled, <- of_uint_value.
  change (Pos.of_uint (N.to_uint (Z.to_N n)))
    with (N.of_uint (N.to_uint (Z.to_N n))).
  rewrite DecimalN.Unsigned.of_to. apply Z2N.id, Hn.
Qed.

Lemma readDigits_stop (rest : string) (acc : Z) (cnt : nat) :
  stopsDigits rest -> readDigits rest acc cnt = (acc, cnt, rest).
Proof.
  destruct rest as [|c rest]; cbn; [reflexivity|]. intros ->. reflexivity.
Qed.

Lemma readDigits_digits (a rest : string) :
  allDigits a -> stopsDigits rest ->
  forall acc cnt,
    readDigits (a ++ rest) acc cnt
    = (spelled a acc, (cnt + String.length a)%nat, rest).
Proof.
  intros Ha Hr. induction a as [|c a IH]; intros acc cnt.
  - cbn [append spelled String.length]. rewrite Nat.add_0_r.
    apply readDigits_stop, Hr.
  - destruct Ha as [Hc Ha]. cbn [append readDigits spelled String.length].
    destruct (digitValue c) as [d|]; [|contradiction].
    rewrite (IH Ha). f_equal. f_equal. lia.
Qed.

Lemma allDigits_app (a b : string) :
  allDigits (a ++ b) <-> allDigits a /\ allDigits b.
Proof.
  induction a as [|c a IH]; cbn; [tauto|]. rewrite IH. tauto.
Qed.

Lemma spelled_app (a b : string) :
  allDigits a -> forall acc, spelled (a ++ b) acc = spelled b (spelled a acc).
Proof.
  induction a as [|c a IH]; intros Ha acc; [reflexivity|].
  destruct Ha as [Hc Ha]. cbn [append spelled].
  destruct (digitValue c); [apply IH, Ha | contradiction].
Qed.

Lemma spelled_shift (b : string) :
  allDigits b ->
  forall acc,
    spelled b acc
    = (acc * 10 ^ Z.of_nat (String.length b) + spelled b 0)%Z.
Proof.
  induction b as [|c b IH]; intros Hb acc.
  - cbn. lia.
  - destruct Hb as [Hc Hb]. cbn [spelled String.length].
    destruct (digitValue c) as [d|]; [|contradiction].
    rewrite (IH Hb (acc * 10 + d)%Z), (IH Hb (0 * 10 + d)%Z).
    rewrite Nat2Z.inj_succ, Z.pow_succ_r by lia. lia.
Qed.

Lemma zeros_digits (k : nat) : allDigits (zeros k).
Proof. induction k; cbn; [exact I | split; [discriminate | assumption]]. Qed.

Lemma zeros_spelled (k : nat) : spelled (zeros k) 0 = 0%Z.
Proof. induction k; cbn; [reflexivity | exact IHk]. Qed.

Lemma zeros_length (k : nat) : String.length (zeros k) = k.
Proof. induction k; cbn; [reflexivity | rewrite IHk; reflexivity]. Qed.

Lemma length_app (a b : string) :
  String.length (a ++ b) = (String.length a + String.length b)%nat.
Proof. induction a; cbn; [reflexivity | rewrite IHa; reflexivity]. Qed.

Lemma substring_all (s : string) : substring 0 (String.length s) s = s.
Proof. induction s; cbn; [reflexivity | rewrite IHs; reflexivity]. Qed.

Lemma substring_split (s : string) :
  forall n,
    (n <= String.length s)%nat ->
    substring 0 n s ++ substring n (String.length s - n) s = s
    /\ String.length (substring 0 n s) = n.
Proof.
  induction s as [|c s IH]; intros n Hn.
  - cbn in Hn. assert (n = 0%nat) by lia. subst n. split; reflexivity.
  - destruct n as [|n].
    + cbn [substring append String.length Nat.sub].
      rewrite substring_all. split; reflexivity.
    + cbn in Hn. destruct (IH n ltac:(lia)) as [H1 H2].
      cbn [substring append String.length Nat.sub]. rewrite H1, H2.
      split; reflexivity.
Qed.

Lemma digit_not_letter (c : ascii) :
  digitValue c <> None ->
  Ascii.eqb c "I" = false /\ Ascii.eqb c "-" = false.
Proof.
  intro H. split.
  - destruct (Ascii.eqb_spec c "I") as [->|]; [destruct H|]; reflexivity.
  - destruct (Ascii.eqb_spec c "-") as [->|]; [destruct H|]; reflexivity.
Qed.

Lemma StringToNumber_unsigned (c : ascii) (s : string) :
  digitValue c <> None ->
  StringToNumber (String c s)
  = match unsignedToNumber (String c s) with
    | Some v => Num.Fin v
    | None => Num.NaN
    end.
Proof.
  intro H. destruct (digit_not_letter c H) as [HI Hm].
  unfold StringToNumber.
  cbn [String.eqb]. rewrite HI, Hm. cbn [andb].
  destruct c as [[] [] [] [] [] [] [] []]; try reflexivity;
    try (exfalso; apply H; reflexivity); discriminate Hm.
Qed.

Lemma StringToNumber_negative (c : ascii) (s : string) :
  digitValue c <> None ->
  StringToNumber (String "-" (String c s))
  = match unsignedToNumber (String c s) with
    | Some v => Num.Fin (- v)
    | None => Num.NaN
    end.
Proof.
  intro H. destruct (digit_not_letter c H) as [HI Hm].
  unfold StringToNumber. cbn [String.eqb Ascii.eqb Bool.eqb andb].
  rewrite HI. reflexivity.
Qed.

Lemma pow10_pos (d : nat) : (0 < 10 ^ Z.of_nat d)%Z.
Proof. apply Z.pow_pos_nonneg; lia. Qed.

Lemma split_value (A B P : Z) :
  (0 < P)%Z ->
  inject_Z A + inject_Z B / inject_Z P == inject_Z (A * P + B) / inject_Z P.
Proof.
  intro HP. rewrite inject_Z_plus, inject_Z_mult.
  assert (~ inject_Z P == 0).
  { intro H. apply (inject_Z_injective P 0) in H. lia. }
  field. assumption.
Qed.

(** The digits printed by [toFixed], without the sign, read back as the
    rounded integer scaled down. *)
Lemma fixed_body_reads_back (d : nat) (n : Z) :
  (0 <= n)%Z ->
  let ds := digitsOf n in
  let padded := zeros (S d - String.length ds) ++ ds in
  let k := (String.length padded - d)%nat in
  let body :=
    substring 0 k padded
    ++ (if (d =? 0)%nat then EmptyString else "." ++ substring k d padded) in
  exists c s v,
    body = String c s
    /\ digitValue c <> None
    /\ unsignedToNumber body = Some v
    /\ v == inject_Z n / inject_Z (10 ^ Z.of_nat d).
Proof.
  intros Hn ds padded k body.
  assert (Hpd : allDigits padded).
  { apply allDigits_app. split; [apply zeros_digits | apply digitsOf_digits]. }
  assert (Hpv : spelled padded 0 = n).
  { unfold padded. rewrite spelled_app by apply zeros_digits.
    rewrite zeros_spelled. apply digitsOf_spelled, Hn. }
  assert (HL : (S d <= String.length padded)%nat).
  { unfold padded. rewrite length_app, zeros_length. lia. }
  assert (Hkd : (k + d = String.length padded)%nat) by (unfold k; lia).
  clearbody k.
  destruct (substring_split padded k ltac:(lia)) as [Hsplit Hka].
  replace (String.length padded - k)%nat with d in Hsplit by lia.
  set (a := substring 0 k padded) in *.
  set (b := substring k d padded) in *.
  assert (Hab : allDigits a /\ allDigits b)
    by (apply allDigits_app; rewrite Hsplit; exact Hpd).
  destruct Hab as [Ha Hb].
  assert (Hlb : String.length b = d).
  { pose proof (f_equal String.length Hsplit) as H.
    rewrite length_app in H. lia. }
  assert (Hk : k <> 0%nat) by lia.
  assert (Hval : n = (spelled a 0 * 10 ^ Z.of_nat d + spelled b 0)%Z).
  { rewrite <- Hpv, <- Hsplit, spelled_app by exact Ha.
    rewrite (spelled_shift b Hb (spelled a 0)), Hlb. reflexivity. }
  destruct (d =? 0)%nat eqn:Ed.
  - apply Nat.eqb_eq in Ed.
    assert (b = EmptyString) by (destruct b; [reflexivity | cbn in Hlb; lia]).
    subst body. rewrite H in *.
    destruct a as [|c s] eqn:Ea; [cbn in Hka; lia|]. rewrite <- Ea in *.
    exists c, (s ++ EmptyString), (inject_Z (spelled a 0)).
    split; [rewrite Ea; reflexivity|].
    split; [rewrite Ea in Ha; apply Ha|].
    split.
    + unfold unsignedToNumber.
      rewrite (readDigits_digits a EmptyString Ha I 0%Z 0%nat).
      rewrite Hka. cbn [Nat.add]. destruct (k =? 0)%nat eqn:Ek.
      * apply Nat.eqb_eq in Ek. contradiction.
      * reflexivity.
    + rewrite Hval, <- split_value by apply pow10_pos.
      cbn [spelled]. unfold Qdiv. change (inject_Z 0) with 0. ring.
  - apply Nat.eqb_neq in Ed. subst body.
    destruct a as [|c s] eqn:Ea; [cbn in Hka; lia|]. rewrite <- Ea in *.
    exists c, (s ++ "." ++ b),
      (inject_Z (spelled a 0)
       + inject_Z (spelled b 0) / inject_Z (10 ^ Z.of_nat d)).
    split; [rewrite Ea; reflexivity|].
    split; [rewrite Ea in Ha; apply Ha|].
    split.
    + unfold unsignedToNumber.
      rewrite (readDigits_digits a ("." ++ b) Ha eq_refl 0%Z 0%nat).
      rewrite Hka. cbn [Nat.add]. destruct (k =? 0)%nat eqn:Ek.
      * apply Nat.eqb_eq in Ek. contradiction.
      * cbn [append].
        rewrite <- (StrFacts.append_nil_r b) at 1.
        rewrite (readDigits_digits b EmptyString Hb I 0%Z 0%nat).
        rewrite Hlb. reflexivity.
    + rewrite Hval. apply split_value, pow10_pos.
Qed.

Lemma fixedInteger_nonneg (d : nat) (x : Q) : (0 <= fixedInteger d x)%Z.
Proof.
  unfold fixedInteger. change 0%Z with (Qfloor 0). apply Qfloor_resp_le.
  pose proof (Qabs_nonneg x).
  assert (0 < inject_Z (10 ^ Z.of_nat d)).
  { change 0 with (inject_Z 0). rewrite <- Zlt_Qlt. apply pow10_pos. }
  nra.
Qed.

(** Reading back what [toFixed] printed gives the rounded value. *)
Lemma StringToNumber_toFixed (d : nat) (x : Q) :
  Qabs x < inject_Z (10 ^ 21) ->
  exists v,
    StringToNumber (toFixed d x) = Num.Fin v /\ v == fixedValue d x.
Proof.
  intro Hx. unfold toFixed, fixedValue.
  assert (Hbig : Qle_bool (inject_Z (10 ^ 21)) (Qabs x) = false).
  { apply not_true_is_false. rewrite Qle_bool_iff. apply Qlt_not_le, Hx. }
  rewrite Hbig.
  destruct (fixed_body_reads_back d (fixedInteger d x) (fixedInteger_nonneg d x))
    as (c & s & v & Hbody & Hc & Hu & Hv).
  cbv zeta in Hbody, Hu. rewrite Hbody.
  destruct (Num.lt x 0).
  - exists (- v). cbn [append]. rewrite (StringToNumber_negative c s Hc).
    rewrite <- Hbody, Hu. split; [reflexivity|]. rewrite Hv. reflexivity.
  - exists v. cbn [append]. rewrite (StringToNumber_unsigned c s Hc).
    rewrite <- Hbody, Hu. split; [reflexivity | exact Hv].
Qed.

Lemma gt_compat (a b y : Q) : a == b -> Num.gt a y = Num.gt b y.
Proof. intro H. unfold Num.gt. rewrite H. reflexivity. Qed.

(** The comparison of a [toFixed] text with a number compares the rounded
    value. *)
Lemma stringGt_toFixed (d : nat) (x y : Q) :
  Qabs x < inject_Z (10 ^ 21) ->
  stringGt (toFixed d x) y = Num.gt (fixedValue d x) y.
Proof.
  intro Hx. destruct (StringToNumber_toFixed d x Hx) as (v & Hs & Hv).
  unfold stringGt. rewrite Hs. cbn [Num.ext_gt]. apply gt_compat, Hv.
Qed.

End FixedFacts.

(** X21: the memory status text reports the used and available memory with
    two decimals and the percentage with one, and chooses its clause by
    the percentage as printed, not by the exact one: the pressure clause
    appears when the percentage rounded to one decimal exceeds 80, the
    healthy clause otherwise (so 80.04 percent is still healthy). *)
Theorem memory_status_clause_uses_rounded_percentage (st : State) :
  let memory := Metrics.memory (metrics st) in
  let percent := Memory.used memory / Memory.total memory * 100 in
  ~ Memory.total memory == 0 ->
  Qabs percent < inject_Z (10 ^ 21) ->
  let response := Chat.memoryStatusResponse st in
  Str.includes response (Str.toFixed 2 (Memory.used memory) ++ " GB</strong>")
  = true
  /\ Str.includes response (Str.toFixed 1 percent ++ "%)") = true
  /\ Str.includes response
       (Str.toFixed 2 (Memory.available memory) ++ " GB<br>") = true
  /\ Str.includes response
       (if Num.gt (FixedSpec.fixedValue 1 percent) 80
        then "⚠️ Memory pressure detected! "
        else "✅ Memory levels are healthy. ") = true.
Proof.
  intros memory percent Ht Hx response. subst response.
  unfold Chat.memoryStatusResponse, getMetrics. cbn [readMetrics fst].
  fold memory. unfold Num.div.
  destruct (Qeq_bool (Memory.total memory) 0) eqn:E;
    [apply Qeq_bool_iff in E; contradiction|].
  cbn [Num.ext_mul Str.ext_toFixed]. fold percent.
  rewrite (FixedFacts.stringGt_toFixed 1 percent 80 Hx).
  repeat split; find_piece.
Qed.

Lemma memory_status_clause_uses_rounded_percentage_witness :
  Num.gt (12.8064 / 16 * 100) 80 = true
  /\ Str.includes
       (Chat.memoryStatusResponse
          (withMemory {| Memory.used := 12.8064; Memory.total := 16;
                         Memory.available := 3.1936 |} (start CONFIG)))
       "✅ Memory levels are healthy. " = true.
Proof.
  split; [reflexivity|].
  exact (proj2 (proj2 (proj2
    (memory_status_clause_uses_rounded_percentage
       (withMemory {| Memory.used := 12.8064; Memory.total := 16;
                      Memory.available := 3.1936 |} (start CONFIG))
       ltac:(discriminate) eq_refl)))).
Defined.

(* ===================================================================== *)
(** ** Properties of the dashboard controller *)
(* ===================================================================== *)

Module DashboardFacts.

Import Str Dashboard FixedSpec.
Local Open Scope string_scope.

Lemma getProgressClass_toFixed (thresholds : Thresholds.t) (d : nat) (x : Q) :
  Qabs x < inject_Z (10 ^ 21) ->
  getProgressClass thresholds (toFixed d x)
  = progressClassOf thresholds (fixedValue d x).
Proof.
  intro Hx. unfold getProgressClass, progressClassOf.
  rewrite !(FixedFacts.stringGt_toFixed d x _ Hx). reflexivity.
Qed.

Lemma concat_cons (x : string) (l : list string) :
  String.concat EmptyString (x :: l) = x ++ String.concat EmptyString l.
Proof.
  destruct l as [|y l]; cbn [String.concat].
  - symmetry. apply StrFacts.append_nil_r.
  - reflexivity.
Qed.

Lemma includes_concat {A : Type} (f : A -> string) (l : list A) (x : A)
  (sub : string) :
  In x l -> includes (f x) sub = true ->
  includes (String.concat EmptyString (map f l)) sub = true.
Proof.
  intros Hin Hsub. induction l as [|y l IH]; [destruct Hin|].
  cbn [map]. rewrite concat_cons. destruct Hin as [->|Hin].
  - apply StrFacts.includes_app_l, Hsub.
  - apply StrFacts.includes_app_r, IH, Hin.
Qed.

Lemma min_cap (x : Q) :
  0 <= x ->
  0 <= Num.Math_min 100 x /\ Num.Math_min 100 x <= 100
  /\ (100 <= x -> Num.Math_min 100 x = 100)
  /\ (x < 100 -> Num.Math_min 100 x = x).
Proof.
  intro Hx. unfold Num.Math_min. destruct (Num.lt x 100) eqn:E.
  - apply NumFacts.lt_true in E.
    repeat split; intros; try lra; try reflexivity; exfalso; lra.
  - apply (NumFacts.gt_false 100 x) in E.
    repeat split; intros; try lra; try reflexivity; exfalso; lra.
Qed.

End DashboardFacts.

(** X22: [updateCPU] shows the usage with one decimal and a percent sign,
    as text and as bar width, and colours the bar by the usage as printed:
    "danger" above the danger threshold, "warning" above the warning
    threshold and nothing otherwise, each compared with the usage rounded
    to one decimal (so 80.04 is still "warning" for a danger threshold of
    80). *)
Theorem cpu_gauge_class_uses_rounded_usage
  (thresholds : Thresholds.t) (cpu : Cpu.t) :
  Qabs (Cpu.usage cpu) < inject_Z (10 ^ 21) ->
  let gauge := Dashboard.updateCPU thresholds cpu in
  Dashboard.textContent gauge = (Str.toFixed 1 (Cpu.usage cpu) ++ "%")%string
  /\ Dashboard.width gauge = Dashboard.WidthText (Dashboard.textContent gauge)
  /\ Dashboard.className gauge
     = ("progress-fill "
        ++ progressClassOf thresholds
             (FixedSpec.fixedValue 1 (Cpu.usage cpu)))%string.
Proof.
  intros Hx gauge. subst gauge. unfold Dashboard.updateCPU.
  cbn [Dashboard.textContent Dashboard.width Dashboard.className].
  rewrite (DashboardFacts.getProgressClass_toFixed thresholds 1 _ Hx).
  repeat split.
Qed.

Lemma cpu_gauge_class_uses_rounded_usage_witness :
  Num.gt 80.04 80 = true
  /\ Dashboard.className
       (Dashboard.updateCPU THRESHOLDS
          {| Cpu.usage := 80.04; Cpu.cores := 8; Cpu.frequency := 3.5 |})
     = "progress-fill warning"%string.
Proof.
  split; [reflexivity|].
  rewrite (proj2 (proj2 (cpu_gauge_class_uses_rounded_usage THRESHOLDS
             {| Cpu.usage := 80.04; Cpu.cores := 8; Cpu.frequency := 3.5 |}
             eq_refl))).
  reflexivity.
Defined.

(** X23: [updateMemory] shows the percentage [used / total * 100] with one
    decimal and colours the bar by that percentage as printed; with a zero
    total it shows "Infinity%" and the "danger" class when [used] is
    positive, and "NaN%" with no class when [used] is zero. *)
Theorem memory_gauge_class_and_zero_total
  (thresholds : Thresholds.t) (memory : Memory.t) :
  let used := Memory.used memory in
  let total := Memory.total memory in
  let gauge := Dashboard.updateMemory thresholds memory in
  (~ total == 0 -> Qabs (used / total * 100) < inject_Z (10 ^ 21) ->
   Dashboard.memoryValue gauge
   = (Str.toFixed 1 (used / total * 100) ++ "%")%string
   /\ Dashboard.memoryClassName gauge
      = ("progress-fill "
         ++ progressClassOf thresholds
              (FixedSpec.fixedValue 1 (used / total * 100)))%string)
  /\ (total == 0 -> 0 < used ->
      Dashboard.memoryValue gauge = "Infinity%"%string
      /\ Dashboard.memoryClassName gauge = "progress-fill danger"%string)
  /\ (total == 0 -> used == 0 ->
      Dashboard.memoryValue gauge = "NaN%"%string
      /\ Dashboard.memoryClassName gauge = "progress-fill "%string).
Proof.
  intros used total gauge. subst gauge. unfold Dashboard.updateMemory.
  cbn [Dashboard.memoryValue Dashboard.memoryClassName].
  fold used total. unfold Num.div.
  repeat match goal with |- _ /\ _ => split end.
  - intros Ht Hx.
    destruct (Qeq_bool total 0) eqn:E;
      [apply Qeq_bool_iff in E; contradiction|].
    cbn [Num.ext_mul Str.ext_toFixed].
    rewrite (DashboardFacts.getProgressClass_toFixed thresholds 1 _ Hx).
    split; reflexivity.
  - intros Ht Hu.
    assert (E : Qeq_bool total 0 = true) by (apply Qeq_bool_iff, Ht).
    rewrite E.
    assert (E2 : Qeq_bool used 0 = false).
    { apply not_true_is_false. rewrite Qeq_bool_iff. lra. }
    assert (E3 : Num.lt used 0 = false).
    { apply (NumFacts.gt_false 0 used). lra. }
    rewrite E2, E3. split; reflexivity.
  - intros Ht Hu.
    assert (E : Qeq_bool total 0 = true) by (apply Qeq_bool_iff, Ht).
    assert (E2 : Qeq_bool used 0 = true) by (apply Qeq_bool_iff, Hu).
    rewrite E, E2. split; reflexivity.
Qed.

(** X24: after every run of the interval callback ([updateMetrics()] then
    [updateDashboard()]) with draws in [[0, 1)], the disk and network bars
    are between 0 and 100 percent wide: the disk bar is
    [(read + write) / 200 * 100] below 200 MB/s and full from there, the
    network bar [(sent + received) / 1000 * 100] below 1000 KB/s and full
    from there; both keep the plain class. *)
Theorem bars_capped_after_interval
  (cfg : Config.t) (thresholds : Thresholds.t) (draws : nat -> Q) (st : State) :
  unit_draws draws ->
  let view := fst (Dashboard.intervalCallback cfg thresholds draws st) in
  let m' := metrics (snd (Dashboard.intervalCallback cfg thresholds draws st)) in
  let diskTotal := Disk.read (Metrics.disk m') + Disk.write (Metrics.disk m') in
  let networkTotal :=
    Network.sent (Metrics.network m') + Network.received (Metrics.network m') in
  (exists v, Dashboard.width (Dashboard.diskView view) = Dashboard.WidthPercent v
             /\ 0 <= v /\ v <= 100
             /\ (200 <= diskTotal -> v = 100)
             /\ (diskTotal < 200 -> v = diskTotal / 200 * 100))
  /\ (exists v, Dashboard.width (Dashboard.networkView view)
                = Dashboard.WidthPercent v
                /\ 0 <= v /\ v <= 100
                /\ (1000 <= networkTotal -> v = 100)
                /\ (networkTotal < 1000 -> v = networkTotal / 1000 * 100))
  /\ Dashboard.className (Dashboard.diskView view) = "progress-fill"%string
  /\ Dashboard.className (Dashboard.networkView view) = "progress-fill"%string.
Proof.
  intros Hd view m' diskTotal networkTotal.
  destruct (updateMetrics_rates cfg draws st) as (Hr & Hw & Hs & Hv).
  cbv zeta in Hr, Hw, Hs, Hv.
  assert (H0 : 0 <= diskTotal /\ 0 <= networkTotal).
  { unfold diskTotal, networkTotal, m', Dashboard.intervalCallback. cbn [snd].
    rewrite Hr, Hw, Hs, Hv.
    destruct (Hd (2 + randomCalls st)%nat), (Hd (3 + randomCalls st)%nat),
      (Hd (4 + randomCalls st)%nat), (Hd (5 + randomCalls st)%nat).
    split; nra. }
  destruct H0 as [H0d H0n].
  assert (Hdisk : 0 <= diskTotal / 200 * 100)
    by (unfold Qdiv; change (/ 200) with (1 # 200); lra).
  assert (Hnet : 0 <= networkTotal / 1000 * 100)
    by (unfold Qdiv; change (/ 1000) with (1 # 1000); lra).
  destruct (DashboardFacts.min_cap _ Hdisk) as (Hd1 & Hd2 & Hd3 & Hd4).
  destruct (DashboardFacts.min_cap _ Hnet) as (Hn1 & Hn2 & Hn3 & Hn4).
  split; [|split; [|split; reflexivity]].
  - exists (Num.Math_min 100 (diskTotal / 200 * 100)).
    split; [reflexivity|]. split; [exact Hd1|]. split; [exact Hd2|]. split.
    + intro H. apply Hd3. unfold Qdiv. change (/ 200) with (1 # 200). lra.
    + intro H. apply Hd4. unfold Qdiv. change (/ 200) with (1 # 200). lra.
  - exists (Num.Math_min 100 (networkTotal / 1000 * 100)).
    split; [reflexivity|]. split; [exact Hn1|]. split; [exact Hn2|]. split.
    + intro H. apply Hn3. unfold Qdiv. change (/ 1000) with (1 # 1000). lra.
    + intro H. apply Hn4. unfold Qdiv. change (/ 1000) with (1 # 1000). lra.
Qed.

Lemma bars_capped_after_interval_witness :
  exists v,
    Dashboard.width
      (Dashboard.diskView
         (fst (Dashboard.intervalCallback CONFIG THRESHOLDS halfDraws
                 (start CONFIG))))
    = Dashboard.WidthPercent v
    /\ v <= 100.
Proof.
  destruct (proj1 (bars_capped_after_interval CONFIG THRESHOLDS halfDraws
                     (start CONFIG) halfDraws_unit))
    as (v & Hw & _ & Hle & _).
  exists v. split; assumption.
Defined.

(** X25: [updateAlerts] sets the alert container to one banner per alert
    of [checkAlerts()], in their order (the [else] branch gives the same
    text as the empty join): the container is empty exactly when there is
    no alert, and it shows the message of every alert raised. *)
Theorem alert_container_shows_alerts (cfg : Config.t) (st : State) :
  let alerts := fst (checkAlerts cfg st) in
  let html := Dashboard.updateAlerts cfg st in
  html = String.concat EmptyString (map Dashboard.alertBanner alerts)
  /\ (html = EmptyString <-> alerts = [])
  /\ (forall alert,
        In alert alerts -> Str.includes html (Alert.message alert) = true).
Proof.
  intros alerts html. subst html. unfold Dashboard.updateAlerts. fold alerts.
  assert (He : (if (0 <? List.length alerts)%nat
                then String.concat EmptyString
                       (map Dashboard.alertBanner alerts)
                else EmptyString)
               = String.concat EmptyString (map Dashboard.alertBanner alerts)).
  { destruct alerts; reflexivity. }
  rewrite He. split; [reflexivity|]. split.
  - split.
    + destruct alerts as [|a l]; [reflexivity|].
      cbn [map]. rewrite DashboardFacts.concat_cons.
      unfold Dashboard.alertBanner. cbn [append]. discriminate.
    + intros ->. reflexivity.
  - intros alert Hin.
    apply (DashboardFacts.includes_concat
             Dashboard.alertBanner alerts alert _ Hin).
    unfold Dashboard.alertBanner. find_piece.
Qed.

(** ** The rows of the process table *)

Module RowFacts.

Import Str Dashboard DashboardSpec FixedSpec.
Local Open Scope string_scope.

Lemma processRow_rowOf (proc : Process.t) : processRow proc = rowOf proc.
Proof.
  unfold processRow, rowOf, row, cell, badge.
  cbn [map String.concat].
  repeat rewrite StrFacts.append_assoc. reflexivity.
Qed.


Ltac decide_chars :=
  repeat match goal with
         | |- context [ascii_dec ?a ?b] =>
             destruct (ascii_dec a b); try subst; try tauto; try congruence
         | H : context [ascii_dec ?a ?b] |- _ =>
             destruct (ascii_dec a b); try subst; try tauto; try congruence
         end.

Lemma prefix_nil (s : string) : prefix EmptyString s = true.
Proof. destruct s; reflexivity. Qed.

Lemma prefix_tag_app_r (c : ascii) (a b : string) :
  safeStart b ->
  prefix rowTag (String c (a ++ b)) = prefix rowTag (String c a).
Proof.
  intro Hb. unfold rowTag.
  destruct a as [|c1 [|c2 [|c3 a]]]; destruct b as [|d b];
    cbn [append prefix safeStart] in *; decide_chars;
    rewrite ?prefix_nil; reflexivity.
Qed.

Lemma occurrences_app_r (a b : string) :
  safeStart b ->
  occurrences rowTag (a ++ b)
  = (occurrences rowTag a + occurrences rowTag b)%nat.
Proof.
  intro Hb. induction a as [|c a IH].
  - reflexivity.
  - cbn [append occurrences]. rewrite IH, (prefix_tag_app_r c a b Hb). lia.
Qed.

Lemma safeEnd_cons (c : ascii) (a : string) :
  a <> EmptyString -> safeEnd (String c a) -> safeEnd a.
Proof. destruct a; [congruence|]. intros _ H. exact H. Qed.

Lemma prefix_tag_app_l (c : ascii) (a b : string) :
  safeEnd (String c a) ->
  prefix rowTag (String c (a ++ b)) = prefix rowTag (String c a).
Proof.
  intro Ha. unfold rowTag.
  destruct a as [|c1 [|c2 [|c3 a]]]; destruct b as [|d b];
    cbn [append prefix safeEnd] in *; decide_chars;
    rewrite ?prefix_nil; reflexivity.
Qed.

Lemma occurrences_app_l (a b : string) :
  safeEnd a ->
  occurrences rowTag (a ++ b)
  = (occurrences rowTag a + occurrences rowTag b)%nat.
Proof.
  intro Ha. induction a as [|c a IH].
  - reflexivity.
  - cbn [append occurrences]. rewrite (prefix_tag_app_l c a b Ha).
    destruct a as [|c' a'].
    + cbn [append occurrences prefix]. unfold rowTag. cbn [prefix].
      decide_chars; lia.
    + rewrite IH by exact Ha. lia.
Qed.

Lemma plain_occurrences (s : string) : plain s -> occurrences rowTag s = 0%nat.
Proof.
  induction s as [|c s IH]; [reflexivity|].
  intros [Hc Hs]. cbn [occurrences]. rewrite (IH Hs).
  unfold rowTag. cbn [prefix]. decide_chars; reflexivity.
Qed.

Lemma includes_occurrences (s : string) :
  includes s rowTag = false -> occurrences rowTag s = 0%nat.
Proof.
  induction s as [|c s IH]; [reflexivity|].
  cbn [includes occurrences].
  destruct (prefix rowTag (String c s)); [discriminate|].
  intro H. rewrite (IH H). reflexivity.
Qed.

Lemma plain_app (a b : string) : plain a -> plain b -> plain (a ++ b).
Proof.
  induction a as [|c a IH]; cbn [append plain]; [tauto|].
  intros [Hc Ha] Hb. split; [exact Hc | exact (IH Ha Hb)].
Qed.

Lemma plain_substring (s : string) (n m : nat) :
  plain s -> plain (substring n m s).
Proof.
  revert n m. induction s as [|c s IH]; intros n m H.
  - destruct n, m; exact I.
  - destruct H as [Hc Hs]. destruct n as [|n]; cbn [substring].
    + destruct m as [|m]; [exact I|]. split; [exact Hc | apply IH, Hs].
    + apply IH, Hs.
Qed.

Lemma digits_plain (s : string) : allDigits s -> plain s.
Proof.
  induction s as [|c s IH]; [tauto|].
  intros [Hc Hs]. split; [|exact (IH Hs)].
  intros ->. apply Hc. reflexivity.
Qed.

Lemma fracDigits_plain (fuel : nat) (r d : Z) : plain (fracDigits fuel r d).
Proof.
  revert r. induction fuel as [|fuel IH]; intro r; cbn [fracDigits]; [exact I|].
  destruct (r =? 0)%Z; [exact I|].
  apply plain_app; [apply digits_plain, FixedFacts.digitsOf_digits | apply IH].
Qed.

Lemma sign_plain (b : bool) : plain (if b then "-" else EmptyString).
Proof. destruct b; cbn; [split; [discriminate | exact I] | exact I]. Qed.

Lemma Number_toString_plain (x : Q) : plain (Number_toString x).
Proof.
  unfold Number_toString.
  apply plain_app; [apply sign_plain|].
  apply plain_app; [apply digits_plain, FixedFacts.digitsOf_digits|].
  destruct (String.eqb _ _); [exact I|].
  apply (plain_app "."); [split; [discriminate | exact I]|].
  apply fracDigits_plain.
Qed.

Lemma toFixed_plain (d : nat) (x : Q) : plain (toFixed d x).
Proof.
  unfold toFixed. destruct (Qle_bool _ _); [apply Number_toString_plain|].
  assert (Hp : plain (zeros (S d - String.length (digitsOf (fixedInteger d x)))
                      ++ digitsOf (fixedInteger d x))).
  { apply plain_app; apply digits_plain;
      [apply FixedFacts.zeros_digits | apply FixedFacts.digitsOf_digits]. }
  apply plain_app; [apply sign_plain|].
  apply plain_app; [apply plain_substring, Hp|].
  destruct (d =? 0)%nat; [exact I|].
  apply (plain_app "."); [split; [discriminate | exact I]|].
  apply plain_substring, Hp.
Qed.

Lemma uint_plain (u : Decimal.uint) : plain (NilZero.string_of_uint u).
Proof.
  apply digits_plain. destruct u;
    [split; [discriminate | exact I] | ..];
    match goal with
    | |- allDigits (NilZero.string_of_uint ?d) =>
        exact (FixedFacts.uint_string_digits d)
    end.
Qed.

Lemma intToString_plain (z : Z) : plain (intToString z).
Proof.
  unfold intToString, NilZero.string_of_int.
  destruct (Z.to_int z) as [u|u].
  - apply uint_plain.
  - split; [discriminate | apply uint_plain].
Qed.

Lemma statusText_plain (status : Status) : plain (statusText status).
Proof.
  destruct status; cbn; repeat split; discriminate.
Qed.

(** One row holds one row tag when the name of the process holds none. *)
Lemma processRow_occurrences (proc : Process.t) :
  includes (Process.name proc) rowTag = false ->
  occurrences rowTag (processRow proc) = 1%nat.
Proof.
  intro Hn. unfold processRow.
  pose proof (includes_occurrences _ Hn) as H1.
  pose proof (plain_occurrences _ (intToString_plain (Process.pid proc))) as H2.
  pose proof (plain_occurrences _ (toFixed_plain 1 (Process.cpu proc))) as H3.
  pose proof (plain_occurrences _ (toFixed_plain 0 (Process.memory proc))) as H4.
  pose proof (plain_occurrences _ (statusText_plain (Process.status proc))) as H5.
  repeat match goal with
         | |- context [occurrences rowTag (?a ++ ?b)] =>
             first [ rewrite (occurrences_app_l a b)
                       by (cbn; repeat split; discriminate)
                   | rewrite (occurrences_app_r a b)
                       by (cbn; repeat split; discriminate) ]
         end.
  rewrite H1, H2, H3, H4, H5. reflexivity.
Qed.

Lemma updateProcessTable_cons (proc : Process.t) (l : list Process.t) :
  updateProcessTable (proc :: l) = processRow proc ++ updateProcessTable l.
Proof. unfold updateProcessTable. cbn [map]. apply DashboardFacts.concat_cons. Qed.

Lemma updateProcessTable_app (l1 l2 : list Process.t) :
  updateProcessTable (l1 ++ l2)
  = updateProcessTable l1 ++ updateProcessTable l2.
Proof.
  induction l1 as [|p l1 IH]; [reflexivity|].
  cbn [app]. rewrite !updateProcessTable_cons, IH.
  symmetry. apply StrFacts.append_assoc.
Qed.

Lemma updateProcessTable_safeStart (l : list Process.t) :
  safeStart (updateProcessTable l).
Proof.
  destruct l as [|p l]; [exact I|].
  rewrite updateProcessTable_cons. unfold processRow. cbn.
  repeat split; discriminate.
Qed.

Lemma updateProcessTable_occurrences (processes : list Process.t) :
  (forall proc, In proc processes ->
                includes (Process.name proc) rowTag = false) ->
  occurrences rowTag (updateProcessTable processes) = List.length processes.
Proof.
  induction processes as [|p l IH]; intro H; [reflexivity|].
  rewrite updateProcessTable_cons.
  rewrite occurrences_app_r by apply updateProcessTable_safeStart.
  rewrite processRow_occurrences by (apply H; left; reflexivity).
  rewrite IH by (intros q Hq; apply H; right; exact Hq).
  reflexivity.
Qed.

End RowFacts.

(** X26: [updateProcessTable] renders one row per process, in the order
    of the table.  The body is the rows of the processes joined without a
    separator, the row of a process being a [<tr>] element whose five
    cells hold the name, the pid, the cpu with one decimal and a percent
    sign, the memory rounded to an integer with " MB", and the status
    badge of that process; the body is empty exactly for an empty table;
    the row of a process stands between the rows of the processes before
    it and of those after it; when no name contains "<tr>" (names are
    inserted as they are) the body has as many "<tr>" as there are
    processes; and the body contains each cell of every process. *)
Theorem process_table_rows (processes : list Process.t) :
  let html := Dashboard.updateProcessTable processes in
  html = String.concat EmptyString (map DashboardSpec.rowOf processes)
  /\ (html = EmptyString <-> processes = [])
  /\ (forall before proc after,
        processes = before ++ proc :: after ->
        html = (Dashboard.updateProcessTable before
                ++ DashboardSpec.rowOf proc
                ++ Dashboard.updateProcessTable after)%string)
  /\ ((forall proc, In proc processes ->
                    Str.includes (Process.name proc) "<tr>" = false) ->
      DashboardSpec.occurrences "<tr>" html = List.length processes)
  /\ (forall proc,
        In proc processes ->
        Str.includes html (Process.name proc ++ "</td>") = true
        /\ Str.includes html (Str.intToString (Process.pid proc) ++ "</td>")
           = true
        /\ Str.includes html (Str.toFixed 1 (Process.cpu proc) ++ "%</td>")
           = true
        /\ Str.includes html
             (Str.toFixed 0 (Process.memory proc) ++ " MB</td>") = true
        /\ Str.includes html
             (Dashboard.statusText (Process.status proc) ++ "</span>") = true).
Proof.
  intro html. subst html.
  split; [|split; [|split; [|split]]].
  - unfold Dashboard.updateProcessTable. f_equal.
    apply map_ext, RowFacts.processRow_rowOf.
  - split.
    + destruct processes as [|p l]; [reflexivity|].
      rewrite RowFacts.updateProcessTable_cons.
      unfold Dashboard.processRow. cbn [append Str.nl]. discriminate.
    + intros ->. reflexivity.
  - intros before proc after ->.
    rewrite RowFacts.updateProcessTable_app, RowFacts.updateProcessTable_cons,
      RowFacts.processRow_rowOf.
    reflexivity.
  - apply RowFacts.updateProcessTable_occurrences.
  - intros proc Hin. unfold Dashboard.updateProcessTable.
    repeat split;
      apply (DashboardFacts.includes_concat
               Dashboard.processRow processes proc _ Hin);
      unfold Dashboard.processRow; find_piece.
Qed.

(** The table after the first tick of the shipped configuration, with all
    draws 0.5, has eight rows. *)
Lemma process_table_rows_witness :
  DashboardSpec.occurrences "<tr>"
    (Dashboard.updateProcessTable
       (tableAfterTick CONFIG halfDraws (start CONFIG)))
  = 8%nat.
Proof.
  rewrite (proj1 (proj2 (proj2 (proj2
             (process_table_rows
                (tableAfterTick CONFIG halfDraws (start CONFIG))))))).
  - vm_compute. reflexivity.
  - intros proc Hin. apply negb_true_iff. revert proc Hin.
    apply forallb_forall. vm_compute. reflexivity.
Defined.

(** Names are inserted as they are: a table with the single process whose
    name is "<tr>" is rendered with two row tags. *)
Example process_name_not_escaped :
  DashboardSpec.occurrences "<tr>"
    (Dashboard.updateProcessTable [DashboardSpec.tagNamedProcess])
  = 2%nat.
Proof. vm_compute. reflexivity. Qed.
